(** * Feature sources of node-feature-discovery

    A shallow embedding of the four feature sources (cpuid, rdt, pstate and
    the two variants of the network source) together with the theorems that
    settle the behavioural claims made about them.

    The sources talk to the operating system only through a handful of
    library calls (ioutil.ReadFile, ioutil.ReadDir, net.Interfaces,
    exec.Cmd.Run, the CPUID table and the two loggers).  Those calls are
    modelled as operations of a small monad over a [world]: a read-only
    [backend] that answers the calls, and a [log] to which every call and
    every logger line is appended in program order. *)

From Stdlib Require Import Strings.String Strings.Ascii Strings.Byte ZArith List Bool Lia
  Sorting.Permutation.
Import ListNotations.
Local Open Scope string_scope.
Local Open Scope Z_scope.
Local Open Scope list_scope.

(** ** Go library functions used by the sources *)

Module Go.

(** Go's [int] on a 64-bit platform: arithmetic wraps around. *)
Definition minInt : Z := - 2 ^ 63.
Definition maxInt : Z := 2 ^ 63 - 1.
Definition maxUint64 : Z := 2 ^ 64 - 1.

Definition wrap (z : Z) : Z := (z + 2 ^ 63) mod 2 ^ 64 - 2 ^ 63.

(** [a + b] on [int]. *)
Definition add (a b : Z) : Z := wrap (a + b).

Definition byteZ (b : byte) : Z := Z.of_N (Byte.to_N b).

Definition between (lo hi b : Z) : bool := (lo <=? b) && (b <=? hi).

(** *** unicode/utf8 *)

Definition RuneError : Z := 65533.
Definition RuneSelf : Z := 128.

Definition cont (b : Z) : bool := between 128 191 b.

(** utf8.DecodeRune: the first rune of [p] and its width in bytes; an
    invalid or short encoding yields [(RuneError, 1)]. *)
Definition DecodeRune (p : list byte) : Z * nat :=
  match map byteZ p with
  | [] => (RuneError, 0%nat)
  | b0 :: t =>
    if b0 <? RuneSelf then (b0, 1%nat)
    else if between 194 223 b0 then
      match t with
      | b1 :: _ =>
        if cont b1
        then (Z.lor (Z.shiftl (Z.land b0 31) 6) (Z.land b1 63), 2%nat)
        else (RuneError, 1%nat)
      | _ => (RuneError, 1%nat)
      end
    else if between 224 239 b0 then
      let lo := if b0 =? 224 then 160 else 128 in
      let hi := if b0 =? 237 then 159 else 191 in
      match t with
      | b1 :: b2 :: _ =>
        if between lo hi b1 && cont b2
        then (Z.lor (Z.shiftl (Z.land b0 15) 12)
                (Z.lor (Z.shiftl (Z.land b1 63) 6) (Z.land b2 63)), 3%nat)
        else (RuneError, 1%nat)
      | _ => (RuneError, 1%nat)
      end
    else if between 240 244 b0 then
      let lo := if b0 =? 240 then 144 else 128 in
      let hi := if b0 =? 244 then 143 else 191 in
      match t with
      | b1 :: b2 :: b3 :: _ =>
        if between lo hi b1 && cont b2 && cont b3
        then (Z.lor (Z.shiftl (Z.land b0 7) 18)
                (Z.lor (Z.shiftl (Z.land b1 63) 12)
                   (Z.lor (Z.shiftl (Z.land b2 63) 6) (Z.land b3 63))), 4%nat)
        else (RuneError, 1%nat)
      | _ => (RuneError, 1%nat)
      end
    else (RuneError, 1%nat)
  end.

(** utf8.RuneStart: the byte is not a continuation byte. *)
Definition RuneStart (b : byte) : bool := negb (Z.land (byteZ b) 192 =? 128).

(** The backwards scan of utf8.DecodeLastRune: starting below the last
    byte, step back over at most [n] bytes until a rune start is found; the
    result is the number of bytes of the candidate encoding. *)
Fixpoint lastStart (n : nat) (rev_before : list byte) (len : nat) : nat :=
  match n, rev_before with
  | S k, b :: r => if RuneStart b then S len else lastStart k r (S len)
  | _, _ => len
  end.

(** utf8.DecodeLastRune: the last rune of [p] and its width. *)
Definition DecodeLastRune (p : list byte) : Z * nat :=
  match rev p with
  | [] => (RuneError, 0%nat)
  | last :: before =>
    if byteZ last <? RuneSelf then (byteZ last, 1%nat)
    else
      let len := lastStart 3 before 1 in
      let '(r, size) := DecodeRune (skipn (length p - len) p) in
      if Nat.eqb size len then (r, size) else (RuneError, 1%nat)
  end.

(** unicode.IsSpace *)
Definition IsSpace (r : Z) : bool :=
  if r <=? 255 then
    between 9 13 r || (r =? 32) || (r =? 133) || (r =? 160)
  else
    (r =? 5760) || between 8192 8202 r || (r =? 8232) || (r =? 8233)
    || (r =? 8239) || (r =? 8287) || (r =? 12288).

(** *** bytes *)

Fixpoint trimLeftSpace (fuel : nat) (s : list byte) : list byte :=
  match fuel, s with
  | S k, _ :: _ =>
    let '(r, wid) := DecodeRune s in
    if IsSpace r then trimLeftSpace k (skipn wid s) else s
  | _, _ => s
  end.

Fixpoint trimRightSpace (fuel : nat) (s : list byte) : list byte :=
  match fuel, s with
  | S k, _ :: _ =>
    let '(r, wid) := DecodeLastRune s in
    if IsSpace r then trimRightSpace k (firstn (length s - wid) s) else s
  | _, _ => s
  end.

(** bytes.TrimSpace: [s] without its leading and trailing white space, as
    defined by Unicode.  Every step removes at least one byte, so [length s]
    steps are enough. *)
Definition TrimSpace (s : list byte) : list byte :=
  let l := trimLeftSpace (length s) s in
  trimRightSpace (length l) l.

(** *** strconv *)

Inductive numerr := ErrSyntax | ErrRange.

Definition digit (c : ascii) : option Z :=
  let n := Z.of_N (N_of_ascii c) in
  if between 48 57 n then Some (n - 48) else None.

(** The digit loop of strconv.ParseUint in base 10 with 64 bits: the first
    offending character decides between a syntax and a range error. *)
Fixpoint parseDigits (s : string) (n : Z) : Z + numerr :=
  match s with
  | EmptyString => inl n
  | String c r =>
    match digit c with
    | None => inr ErrSyntax
    | Some d =>
      let n1 := 10 * n + d in
      if n1 >? maxUint64 then inr ErrRange else parseDigits r n1
    end
  end.

(** strconv.Atoi: an optional sign followed by one or more decimal digits,
    with a value that fits [int]. *)
Definition Atoi (s : string) : Z + numerr :=
  match s with
  | EmptyString => inr ErrSyntax
  | String c r =>
    let '(neg, body) :=
      if Ascii.eqb c "-" then (true, r)
      else if Ascii.eqb c "+" then (false, r)
      else (false, s) in
    match body with
    | EmptyString => inr ErrSyntax
    | _ =>
      match parseDigits body 0 with
      | inr e => inr e
      | inl un =>
        if negb neg && (un >? maxInt) then inr ErrRange
        else if neg && (un >? - minInt) then inr ErrRange
        else inl (if neg then - un else un)
      end
    end
  end.

(** *** strings *)

(** strings.Contains *)
Fixpoint Contains (s substr : string) : bool :=
  String.prefix substr s ||
  match s with
  | EmptyString => false
  | String _ r => Contains r substr
  end.

(** *** path *)

(** path.Join for two elements that are already clean and non-empty, which
    is the only way the sources call it. *)
Definition Join (dir file : string) : string := (dir ++ "/" ++ file)%string.

(** *** net *)

Definition flagNames : list string :=
  ["up"; "broadcast"; "loopback"; "pointtopoint"; "multicast"; "running"].

Fixpoint flagsFrom (i : Z) (names : list string) (f : Z) (s : string) : string :=
  match names with
  | [] => s
  | name :: rest =>
    let s :=
      if Z.testbit f i
      then ((if String.eqb s "" then s else s ++ "|") ++ name)%string
      else s in
    flagsFrom (i + 1) rest f s
  end.

(** net.Flags.String *)
Definition Flags_String (f : Z) : string :=
  let s := flagsFrom 0 flagNames f "" in
  if String.eqb s "" then "0" else s.

(** The fields of net.Interface that the sources read. *)
Record Interface := { Name : string; Flags : Z }.

End Go.

(** ** Errors, the world and the monad of the sources *)

(** Go [error] values.  The text of [err.Error()] is not rendered: an error
    built by [fmt.Errorf(format, err.Error())] keeps the format and the
    error it was made from. *)
Inductive error :=
| OSError (msg : string)
| ExitError (code : Z)
| NumError (func num : string) (e : Go.numerr)
| Errorf (format : string) (cause : error).

Inductive logger := stdoutLogger | stderrLogger.

(** Arguments of a logger line; [FError e] stands for [e.Error()]. *)
Inductive fmtarg :=
| FString (s : string)
| FInt (n : Z)
| FError (e : error).

(** What the sources do to the outside world, in program order. *)
Inductive event :=
| Run (name : string) (args : list string)
| ReadFile (filename : string)
| ReadDir (dirname : string)
| Interfaces
| Printf (l : logger) (format : string) (args : list fmtarg).

(** How a helper process ends.  [exec.Cmd.Run] waits for the process, so a
    process that never exits keeps the caller waiting for ever. *)
Inductive exit :=
| Exited (code : Z)
| NotStarted (msg : string)
| NeverExits.

(** The file and process backends.  [dirEntries] gives the names of the
    entries of a directory, [netInterfaces] the answer of [net.Interfaces]. *)
Record backend := {
  cpuFeatures : list string;
  process : string -> list string -> exit;
  fileContent : string -> list byte + error;
  dirEntries : string -> list string + error;
  netInterfaces : list Go.Interface + error
}.

Record world := { env : backend; log : list event }.

Inductive panic := IndexOutOfRange (index len : nat).

Inductive outcome (A : Type) :=
| Done (a : A)
| Panicked (p : panic)
| Blocked.
Arguments Done {A} a.
Arguments Panicked {A} p.
Arguments Blocked {A}.

Definition M (A : Type) : Type := world -> outcome A * world.

Definition ret {A} (a : A) : M A := fun w => (Done a, w).

Definition bind {A B} (m : M A) (k : A -> M B) : M B :=
  fun w =>
    match m w with
    | (Done a, w') => k a w'
    | (Panicked p, w') => (Panicked p, w')
    | (Blocked, w') => (Blocked, w')
    end.

Declare Scope go_scope.
Delimit Scope go_scope with go.
Notation "x <- m ;; k" := (bind m (fun x => k))
  (at level 100, m at next level, right associativity) : go_scope.
Notation "m ;; k" := (bind m (fun _ => k))
  (at level 100, right associativity) : go_scope.
Local Open Scope go_scope.

Definition emit (e : event) : M unit :=
  fun w => (Done tt, {| env := env w; log := log w ++ [e] |}).

Definition ask : M backend := fun w => (Done (env w), w).

Definition raise {A} (p : panic) : M A := fun w => (Panicked p, w).

Definition block {A} : M A := fun w => (Blocked, w).

(** [s[i]] *)
Definition index (s : list byte) (i : nat) : M byte :=
  match nth_error s i with
  | Some b => ret b
  | None => raise (IndexOutOfRange i (length s))
  end.

(** [for _, x := range xs { body }], with [continue] and [break]. *)
Inductive ctl := Continue | Break.

Fixpoint forRange {I S} (body : I -> S -> M (ctl * S)) (xs : list I) (s : S)
  : M S :=
  match xs with
  | [] => ret s
  | x :: rest =>
    r <- body x s;;
    match r with
    | (Continue, s') => forRange body rest s'
    | (Break, s') => ret s'
    end
  end.

(** The library calls. *)

Definition ioutil_ReadFile (filename : string) : M (list byte + error) :=
  emit (ReadFile filename);;
  b <- ask;;
  ret (fileContent b filename).

Definition ioutil_ReadDir (dirname : string) : M (list string + error) :=
  emit (ReadDir dirname);;
  b <- ask;;
  ret (dirEntries b dirname).

Definition net_Interfaces : M (list Go.Interface + error) :=
  emit Interfaces;;
  b <- ask;;
  ret (netInterfaces b).

(** [exec.Command(name, args...).Run()]: [nil] exactly when the process ran
    and exited with status zero. *)
Definition cmd_Run (name : string) (args : list string) : M (option error) :=
  emit (Run name args);;
  b <- ask;;
  match process b name args with
  | Exited code => ret (if code =? 0 then None else Some (ExitError code))
  | NotStarted msg => ret (Some (OSError msg))
  | NeverExits => block
  end.

Definition logger_Printf (l : logger) (format : string) (args : list fmtarg)
  : M unit :=
  emit (Printf l format args).

Definition strconv_Atoi (s : string) : Z + error :=
  match Go.Atoi s with
  | inl n => inl n
  | inr e => inr (NumError "Atoi" s e)
  end.

(** What [Discover] returns: [([]string, error)], a [nil] slice or a [nil]
    error being [None]. *)
Definition result : Type := option (list string) * option error.

(** The interface of the sources. *)
Record FeatureSource := {
  fsName : string;
  fsDiscover : M result
}.

Definition RDTBin : string :=
  "/go/src/github.com/kubernetes-incubator/node-feature-discovery/rdt-discovery".

(** ** The sources *)

(** cpuidSource, rdtSource and pstateSource are the same in both files. *)

Module cpuidSource.

Definition Name : string := "cpuid".

Definition Discover : M result :=
  b <- ask;;
  ret (Some (cpuFeatures b), None).

End cpuidSource.

Module rdtSource.

Definition Name : string := "rdt".

Definition Discover : M result :=
  let features := [] in
  err <- cmd_Run "bash" ["-c"; Go.Join RDTBin "mon-discovery"];;
  features <-
    match err with
    | Some err =>
      logger_Printf stderrLogger
        "support for RDT monitoring was not detected: %s" [FError err];;
      ret features
    | None => ret (features ++ ["RDTMON"])
    end;;
  err <- cmd_Run "bash" ["-c"; Go.Join RDTBin "l3-alloc-discovery"];;
  features <-
    match err with
    | Some err =>
      logger_Printf stderrLogger
        "support for RDT L3 allocation was not detected: %s" [FError err];;
      ret features
    | None => ret (features ++ ["RDTL3CA"])
    end;;
  err <- cmd_Run "bash" ["-c"; Go.Join RDTBin "l2-alloc-discovery"];;
  features <-
    match err with
    | Some err =>
      logger_Printf stderrLogger
        "support for RDT L2 allocation was not detected: %s" [FError err];;
      ret features
    | None => ret (features ++ ["RDTL2CA"])
    end;;
  ret (Some features, None).

End rdtSource.

Module pstateSource.

Definition Name : string := "pstate".

Definition no_turbo : string := "/sys/devices/system/cpu/intel_pstate/no_turbo".

Definition Discover : M result :=
  let features := [] in
  r <- ioutil_ReadFile no_turbo;;
  match r with
  | inr err =>
    ret (None,
         Some (Errorf "can't detect whether turbo boost is enabled: %s" err))
  | inl bytes =>
    b0 <- index bytes 0;;
    let features :=
      if Byte.eqb b0 x30 then features ++ ["turbo"] else features in
    ret (Some features, None)
  end.

End pstateSource.

(** networkSource of src/sources.go, whose name is "netid": the sysfs of the
    node is mounted under /hostsys. *)
Module netidSource.

Definition Name : string := "netid".

Definition numVfsPath (name : string) : string :=
  ("/hostsys/class/net/" ++ name ++ "/device/sriov_numvfs")%string.

(** The body of the loop; the variable it updates is [total_num_vfs]. *)
Definition body (netInterface : string) (total_num_vfs : Z) : M (ctl * Z) :=
  let filename := numVfsPath netInterface in
  r <- ioutil_ReadFile filename;;
  match r with
  | inr _ => ret (Continue, total_num_vfs)
  | inl bytes_received =>
    let num := Go.TrimSpace bytes_received in
    if Nat.eqb (length bytes_received) 0 then ret (Continue, total_num_vfs)
    else
      match strconv_Atoi (string_of_list_byte num) with
      | inr _ => ret (Continue, total_num_vfs)
      | inl n => ret (Continue, Go.add total_num_vfs n)
      end
  end.

Definition Discover : M result :=
  let features := [] in
  let total_num_vfs := 0 in
  r <- ioutil_ReadDir "/hostsys/class/net";;
  match r with
  | inr err =>
    ret (None, Some (Errorf "can't obtain the network interfaces: %s" err))
  | inl netInterfaces =>
    total_num_vfs <- forRange body netInterfaces total_num_vfs;;
    let features :=
      if total_num_vfs >? 0 then features ++ ["SRIOV"] else features in
    ret (Some features, None)
  end.

End netidSource.

(** networkSource of src/unnamed/part_000, whose name is "network": the
    interfaces come from net.Interfaces and sysfs is read directly. *)
Module networkSource.

Definition Name : string := "network".

Definition totalVfsPath (name : string) : string :=
  ("/sys/class/net/" ++ name ++ "/device/sriov_totalvfs")%string.

Definition numVfsPath (name : string) : string :=
  ("/sys/class/net/" ++ name ++ "/device/sriov_numvfs")%string.

(** The condition that guards the body of the loop. *)
Definition upNotLoopback (netInterface : Go.Interface) : bool :=
  Go.Contains (Go.Flags_String (Go.Flags netInterface)) "up"
  && negb (Go.Contains (Go.Flags_String (Go.Flags netInterface)) "loopback").

(** The body of the loop; the variable it updates is [features]. *)
Definition body (netInterface : Go.Interface) (features : list string)
  : M (ctl * list string) :=
  let name := Go.Name netInterface in
  if upNotLoopback netInterface then
    r <- ioutil_ReadFile (totalVfsPath name);;
    match r with
    | inr err =>
      logger_Printf stderrLogger
        "SR-IOV not supported for network interface: %s: %s"
        [FString name; FError err];;
      ret (Continue, features)
    | inl totalBytes =>
      let total := Go.TrimSpace totalBytes in
      match strconv_Atoi (string_of_list_byte total) with
      | inr err =>
        logger_Printf stderrLogger
          "Error in obtaining maximum supported number of virtual functions for network interface: %s: %s"
          [FString name; FError err];;
        ret (Continue, features)
      | inl t =>
        if t >? 0 then
          logger_Printf stdoutLogger
            "SR-IOV capability is detected on the network interface: %s"
            [FString name];;
          logger_Printf stdoutLogger
            "%d maximum supported number of virtual functions on network interface: %s"
            [FInt t; FString name];;
          let features := features ++ ["sriov"] in
          r <- ioutil_ReadFile (numVfsPath name);;
          match r with
          | inr err =>
            logger_Printf stderrLogger
              "SR-IOV not configured for network interface: %s: %s"
              [FString name; FError err];;
            ret (Continue, features)
          | inl numBytes =>
            let num := Go.TrimSpace numBytes in
            match strconv_Atoi (string_of_list_byte num) with
            | inr err =>
              logger_Printf stderrLogger
                "Error in obtaining the configured number of virtual functions for network interface: %s: %s"
                [FString name; FError err];;
              ret (Continue, features)
            | inl n =>
              if n >? 0 then
                logger_Printf stderrLogger
                  "%d virtual functions configured on network interface: %s"
                  [FInt n; FString name];;
                let features := features ++ ["sriov-configured"] in
                ret (Break, features)
              else
                (if n =? 0 then
                   logger_Printf stderrLogger
                     "SR-IOV not configured on network interface: %s"
                     [FString name]
                 else ret tt);;
                ret (Continue, features)
            end
          end
        else ret (Continue, features)
      end
    end
  else ret (Continue, features).

Definition Discover : M result :=
  let features := [] in
  r <- net_Interfaces;;
  match r with
  | inr err =>
    ret (None,
         Some (Errorf "can't obtain the network interfaces details: %s" err))
  | inl netInterfaces =>
    features <- forRange body netInterfaces features;;
    ret (Some features, None)
  end.

End networkSource.

(** The sources as implementations of the interface. *)
Definition cpuid : FeatureSource :=
  {| fsName := cpuidSource.Name; fsDiscover := cpuidSource.Discover |}.
Definition rdt : FeatureSource :=
  {| fsName := rdtSource.Name; fsDiscover := rdtSource.Discover |}.
Definition pstate : FeatureSource :=
  {| fsName := pstateSource.Name; fsDiscover := pstateSource.Discover |}.
Definition netid : FeatureSource :=
  {| fsName := netidSource.Name; fsDiscover := netidSource.Discover |}.
Definition network : FeatureSource :=
  {| fsName := networkSource.Name; fsDiscover := networkSource.Discover |}.

Definition sources : list FeatureSource := [cpuid; rdt; pstate; netid; network].

(** A computation started on a backend with an empty log: what it returns
    and what it did. *)
Definition run {A} (m : M A) (b : backend) : outcome A * list event :=
  let '(o, w) := m {| env := b; log := [] |} in (o, log w).

Definition appendLog (w : world) (evs : list event) : world :=
  {| env := env w; log := log w ++ evs |}.

(** A computation is oblivious when it never looks at the log and leaves the
    backend alone: started in any world, it returns what it returns on the
    backend alone and appends what it does there. *)
Definition oblivious {A} (m : M A) : Prop :=
  forall w, m w = (fst (run m (env w)), appendLog w (snd (run m (env w)))).

Definition isCall (e : event) : bool :=
  match e with
  | Printf _ _ _ => false
  | _ => true
  end.

(** The library calls of a log, without the logger lines. *)
Definition calls (evs : list event) : list event := filter isCall evs.

Definition count (token : string) (features : list string) : nat :=
  count_occ string_dec features token.

(** ** The vocabulary of the claims *)

(** The value an attribute file parses to, if it can be read and holds an
    integer once the white space around it is removed. *)
Definition attribute (b : backend) (filename : string) : option Z :=
  match fileContent b filename with
  | inl bytes =>
    match strconv_Atoi (string_of_list_byte (Go.TrimSpace bytes)) with
    | inl n => Some n
    | inr _ => None
    end
  | inr _ => None
  end.

Definition positive (v : option Z) : bool :=
  match v with
  | Some n => n >? 0
  | None => false
  end.

Module netidSpec.

Definition dir : string := "/hostsys/class/net".

(** The configured virtual functions of an entry of /hostsys/class/net. *)
Definition numVfs (b : backend) (name : string) : option Z :=
  attribute b (netidSource.numVfsPath name).

(** The running total after the entries [names], from [total] on: an entry
    without a value leaves it as it is. *)
Definition runningTotal (b : backend) (names : list string) (total : Z) : Z :=
  fold_left
    (fun total name =>
       match numVfs b name with
       | Some n => Go.add total n
       | None => total
       end)
    names total.

Definition grandTotal (b : backend) (names : list string) : Z :=
  runningTotal b names 0.

(** The same sum in unbounded integers. *)
Definition exactTotal (b : backend) (names : list string) : Z :=
  fold_right
    (fun name total =>
       match numVfs b name with
       | Some n => n + total
       | None => total
       end)
    0 names.

Definition reads (names : list string) : list event :=
  map (fun name => ReadFile (netidSource.numVfsPath name)) names.

End netidSpec.

(** The words of the claims about the mounted mode, written without the
    helpers of the code: the attribute file of an entry, the value it parses
    to, the exact sum of the values of the entries that have one, and that
    sum as the [int] of a 64-bit platform holds it. *)
Module netidClaim.

Definition sriov_numvfs (name : string) : string :=
  ("/hostsys/class/net/" ++ name ++ "/device/sriov_numvfs")%string.

Definition value (b : backend) (name : string) : option Z :=
  attribute b (sriov_numvfs name).

Fixpoint sum (b : backend) (names : list string) : Z :=
  match names with
  | [] => 0
  | name :: rest =>
    match value b name with
    | Some n => n + sum b rest
    | None => sum b rest
    end
  end.

Definition total (b : backend) (names : list string) : Z :=
  (sum b names + 2 ^ 63) mod 2 ^ 64 - 2 ^ 63.

Definition reads (names : list string) : list event :=
  map (fun name => ReadFile (sriov_numvfs name)) names.

End netidClaim.

Module networkSpec.

Definition totalVfs (b : backend) (i : Go.Interface) : option Z :=
  attribute b (networkSource.totalVfsPath (Go.Name i)).

Definition numVfs (b : backend) (i : Go.Interface) : option Z :=
  attribute b (networkSource.numVfsPath (Go.Name i)).

(** The interface is up, is not the loopback, and supports virtual
    functions. *)
Definition supported (b : backend) (i : Go.Interface) : bool :=
  networkSource.upNotLoopback i && positive (totalVfs b i).

(** A supported interface with virtual functions configured. *)
Definition configured (b : backend) (i : Go.Interface) : bool :=
  supported b i && positive (numVfs b i).

(** The interfaces the loop reaches: all of them up to and including the
    first configured one. *)
Fixpoint scanned (b : backend) (ifs : list Go.Interface) : list Go.Interface :=
  match ifs with
  | [] => []
  | i :: rest => if configured b i then [i] else i :: scanned b rest
  end.

(** The files read for one interface that the loop reaches. *)
Definition reads (b : backend) (i : Go.Interface) : list event :=
  if networkSource.upNotLoopback i then
    ReadFile (networkSource.totalVfsPath (Go.Name i))
    :: (if supported b i
        then [ReadFile (networkSource.numVfsPath (Go.Name i))]
        else [])
  else [].

(** The tokens one interface contributes. *)
Definition tokens (b : backend) (i : Go.Interface) : list string :=
  if configured b i then ["sriov"; "sriov-configured"]
  else if supported b i then ["sriov"]
  else [].

(** An attribute of the interface is missing, unreadable, empty or not a
    number: the total, or the configured number once the total is positive. *)
Definition fails (b : backend) (i : Go.Interface) : Prop :=
  networkSource.upNotLoopback i = true /\
  (totalVfs b i = None \/ (supported b i = true /\ numVfs b i = None)).

End networkSpec.

Module rdtSpec.

Definition helper (script : string) : list string :=
  ["-c"; Go.Join RDTBin script].

(** The helper ran and exited with status zero. *)
Definition detected (e : exit) : bool :=
  match e with
  | Exited code => code =? 0
  | _ => false
  end.

Definition terminates (e : exit) : Prop := e <> NeverExits.

(** The tokens of the helpers that succeeded, in the order of the checks. *)
Definition tokens (mon l3 l2 : exit) : list string :=
  map snd
    (filter (fun p => detected (fst p))
       [(mon, "RDTMON"); (l3, "RDTL3CA"); (l2, "RDTL2CA")]).

Definition runs : list event :=
  [Run "bash" (helper "mon-discovery");
   Run "bash" (helper "l3-alloc-discovery");
   Run "bash" (helper "l2-alloc-discovery")].

End rdtSpec.

(** ** Properties of a run *)

(** The claim of C1 on a backend: when the total of some interface is read
    and parses to a positive value, "sriov" occurs exactly once. *)
Definition presentExactlyOnce (b : backend) : Prop :=
  forall i t features err evs,
    run networkSource.Discover b = (Done (Some features, err), evs) ->
    In (ReadFile (networkSource.totalVfsPath (Go.Name i))) evs ->
    networkSpec.totalVfs b i = Some t ->
    0 < t ->
    count "sriov" features = 1%nat.

(** The claim of C8 for one source: on every backend, Discover comes back. *)
Definition bounded (s : FeatureSource) : Prop :=
  forall b, fst (run (fsDiscover s) b) <> Blocked.

(** The computation starts no process and never waits for one. *)
Definition noProcess {A} (m : M A) : Prop :=
  forall b,
    fst (run m b) <> Blocked /\
    forall name args, ~ In (Run name args) (snd (run m b)).

(** The claim of C6 about the direct mode on a backend: once an interface
    with a failing attribute has been examined, every interface after it
    that is up and not the loopback is examined too. *)
Definition failureSkipsOnlyThat (b : backend) : Prop :=
  forall pre i post j r evs,
    netInterfaces b = inl (pre ++ i :: post) ->
    run networkSource.Discover b = (Done r, evs) ->
    networkSpec.fails b i ->
    In (ReadFile (networkSource.totalVfsPath (Go.Name i))) evs ->
    In j post ->
    networkSource.upNotLoopback j = true ->
    In (ReadFile (networkSource.totalVfsPath (Go.Name j))) evs.

(** The error of a helper that ended without success, and the line written
    about it. *)
Module rdtLog.

Definition failure (e : exit) : option error :=
  match e with
  | Exited code => if code =? 0 then None else Some (ExitError code)
  | NotStarted msg => Some (OSError msg)
  | NeverExits => None
  end.

Definition complaint (format : string) (e : exit) : list event :=
  match failure e with
  | Some err => [Printf stderrLogger format [FError err]]
  | None => []
  end.

End rdtLog.

(** The logger lines of a log. *)
Definition isLine (e : event) : bool := negb (isCall e).

Definition lines (evs : list event) : list event := filter isLine evs.

Definition onStderr (e : event) : Prop :=
  exists format args, e = Printf stderrLogger format args.

(** Two backends with the same files. *)
Definition sameFiles (b b' : backend) : Prop :=
  forall filename, fileContent b filename = fileContent b' filename.

(** ** Backends for the examples *)

Module Examples.

Definition noent : error := OSError "no such file or directory".

Definition line (s : string) : list byte := list_byte_of_string s ++ [x0a].

Definition fileSystem (files : list (string * list byte)) (filename : string)
  : list byte + error :=
  match find (fun f => String.eqb (fst f) filename) files with
  | Some f => inl (snd f)
  | None => inr noent
  end.

Definition helpers (scripts : list (string * exit)) (name : string)
  (args : list string) : exit :=
  match find (fun s => if list_eq_dec string_dec (rdtSpec.helper (fst s)) args
                       then String.eqb name "bash" else false) scripts with
  | Some s => snd s
  | None => NotStarted "executable file not found"
  end.

Definition machine (scripts : list (string * exit))
  (files : list (string * list byte)) (entries : list string + error)
  (ifs : list Go.Interface + error) : backend :=
  {| cpuFeatures := ["SSE2"; "AVX2"; "AES"];
     process := helpers scripts;
     fileContent := fileSystem files;
     dirEntries := fun dirname =>
       if String.eqb dirname netidSpec.dir then entries else inr noent;
     netInterfaces := ifs |}.

Definition up : Z := 19.       (* up|broadcast|multicast *)
Definition loop : Z := 5.      (* up|loopback *)

Definition lo := {| Go.Name := "lo"; Go.Flags := loop |}.
Definition ethA := {| Go.Name := "ethA"; Go.Flags := up |}.
Definition ethB := {| Go.Name := "ethB"; Go.Flags := up |}.
Definition ethC := {| Go.Name := "ethC"; Go.Flags := up |}.
Definition ethD := {| Go.Name := "ethD"; Go.Flags := up |}.
Definition ethX := {| Go.Name := "ethX"; Go.Flags := up |}.

(** The machine of the specification's test: A (total 0), B (total 4,
    configured 0) and C (total 8, configured 2); in addition X, whose total
    is not a number, and D (total 16, configured 8) after C. *)
Definition sysfs : list (string * list byte) :=
  [("/sys/class/net/ethA/device/sriov_totalvfs", line "0");
   ("/sys/class/net/ethA/device/sriov_numvfs", line "0");
   ("/sys/class/net/ethB/device/sriov_totalvfs", line "4");
   ("/sys/class/net/ethB/device/sriov_numvfs", line "0");
   ("/sys/class/net/ethC/device/sriov_totalvfs", line "8");
   ("/sys/class/net/ethC/device/sriov_numvfs", line "2");
   ("/sys/class/net/ethD/device/sriov_totalvfs", line "16");
   ("/sys/class/net/ethD/device/sriov_numvfs", line "8");
   ("/sys/class/net/ethX/device/sriov_totalvfs", line "n/a");
   ("/sys/devices/system/cpu/intel_pstate/no_turbo", line "0")].

Definition allHelpers : list (string * exit) :=
  [("mon-discovery", Exited 0);
   ("l3-alloc-discovery", Exited 1);
   ("l2-alloc-discovery", Exited 0)].

Definition node : backend :=
  machine allHelpers sysfs (inr noent) (inl [lo; ethA; ethX; ethB; ethC; ethD]).

(** A pod with the sysfs of the node mounted under /hostsys. *)
Definition hostsys (files : list (string * list byte)) (entries : list string)
  : backend :=
  machine [] files (inl entries) (inr noent).

Definition pod : backend :=
  hostsys
    [("/hostsys/class/net/eth0/device/sriov_numvfs", line "0");
     ("/hostsys/class/net/eth1/device/sriov_numvfs", line "2");
     ("/hostsys/class/net/eth2/device/sriov_numvfs", line "junk");
     ("/hostsys/class/net/eth3/device/sriov_numvfs", [])]
    ["eth0"; "eth1"; "eth2"; "eth3"; "lo"].

(** One entry reads -4 and another 3. *)
Definition negativePod : backend :=
  hostsys
    [("/hostsys/class/net/eth0/device/sriov_numvfs", line "-4");
     ("/hostsys/class/net/eth1/device/sriov_numvfs", line "3")]
    ["eth0"; "eth1"].

(** The monitoring helper never exits. *)
Definition stuck : backend :=
  machine
    [("mon-discovery", NeverExits);
     ("l3-alloc-discovery", Exited 0);
     ("l2-alloc-discovery", Exited 0)]
    sysfs (inr noent) (inr noent).

(** Two entries of 2^62 configured functions each. *)
Definition overflowPod : backend :=
  hostsys
    [("/hostsys/class/net/eth0/device/sriov_numvfs", line "4611686018427387904");
     ("/hostsys/class/net/eth1/device/sriov_numvfs", line "4611686018427387904")]
    ["eth0"; "eth1"].

(** The same entries as [pod], listed in another order. *)
Definition shuffledPod : backend :=
  hostsys
    [("/hostsys/class/net/eth0/device/sriov_numvfs", line "0");
     ("/hostsys/class/net/eth1/device/sriov_numvfs", line "2");
     ("/hostsys/class/net/eth2/device/sriov_numvfs", line "junk");
     ("/hostsys/class/net/eth3/device/sriov_numvfs", [])]
    ["lo"; "eth3"; "eth1"; "eth0"; "eth2"].

(** The L3 helper never exits. *)
Definition stuckL3 : backend :=
  machine
    [("mon-discovery", Exited 0);
     ("l3-alloc-discovery", NeverExits);
     ("l2-alloc-discovery", Exited 0)]
    sysfs (inr noent) (inr noent).

(** Interfaces whose total is zero or negative, or whose configured number
    is negative. *)
Definition ethN := {| Go.Name := "ethN"; Go.Flags := up |}.
Definition ethM := {| Go.Name := "ethM"; Go.Flags := up |}.

Definition oddNode : backend :=
  machine []
    [("/sys/class/net/ethA/device/sriov_totalvfs", line "0");
     ("/sys/class/net/ethN/device/sriov_totalvfs", line "-1");
     ("/sys/class/net/ethM/device/sriov_totalvfs", line "4");
     ("/sys/class/net/ethM/device/sriov_numvfs", line "-2");
     ("/sys/class/net/ethB/device/sriov_totalvfs", line "4");
     ("/sys/class/net/ethB/device/sriov_numvfs", line "0")]
    (inr noent) (inl [ethA; ethN; ethM; ethB]).

(** An interface with a total of 4 and no sriov_numvfs file. *)
Definition ethH := {| Go.Name := "ethH"; Go.Flags := up |}.

Definition halfNode : backend :=
  machine []
    [("/sys/class/net/ethH/device/sriov_totalvfs", line "4")]
    (inr noent) (inl [ethH]).

(** The flag file can be read but is empty. *)
Definition emptyFlag : backend :=
  machine [] [(pstateSource.no_turbo, [])] (inr noent) (inr noent).

Definition flag (bytes : list byte) : backend :=
  machine [] [(pstateSource.no_turbo, bytes)] (inr noent) (inr noent).

End Examples.

Example TrimSpace_newline :
  Go.TrimSpace [x20; x34; x32; x0a] = [x34; x32].
Proof. reflexivity. Qed.

Example TrimSpace_nbsp :
  Go.TrimSpace [xc2; xa0; x37; xe2; x80; xa8; x0a] = [x37].
Proof. reflexivity. Qed.

Example TrimSpace_broken_utf8 :
  Go.TrimSpace [xe2; x80; x20] = [xe2; x80].
Proof. reflexivity. Qed.

Example Atoi_examples :
  Go.Atoi "42" = inl 42 /\ Go.Atoi "-4" = inl (-4) /\ Go.Atoi "+7" = inl 7 /\
  Go.Atoi "" = inr Go.ErrSyntax /\ Go.Atoi "-" = inr Go.ErrSyntax /\
  Go.Atoi "4 2" = inr Go.ErrSyntax /\
  Go.Atoi "9223372036854775807" = inl Go.maxInt /\
  Go.Atoi "9223372036854775808" = inr Go.ErrRange /\
  Go.Atoi "-9223372036854775808" = inl Go.minInt.
Proof. repeat split; reflexivity. Qed.

Example Flags_String_examples :
  Go.Flags_String 0 = "0" /\ Go.Flags_String 19 = "up|broadcast|multicast" /\
  Go.Flags_String 5 = "up|loopback".
Proof. repeat split; reflexivity. Qed.

(** X13: the guard of the loop of the direct mode, which searches the
    printed flags for "up" and "loopback", depends on two bits of the flags
    only: it holds exactly when the interface is up (bit 0) and is not the
    loopback (bit 2), whatever the other flags are. *)
Lemma upNotLoopback_bits (i : Go.Interface) :
  networkSource.upNotLoopback i =
  Z.testbit (Go.Flags i) 0 && negb (Z.testbit (Go.Flags i) 2).
Proof.
  unfold networkSource.upNotLoopback, Go.Flags_String, Go.flagNames.
  cbn [Go.flagsFrom]. change (0 + 1) with 1. change (1 + 1) with 2.
  change (2 + 1) with 3. change (3 + 1) with 4. change (4 + 1) with 5.
  destruct (Z.testbit (Go.Flags i) 0), (Z.testbit (Go.Flags i) 1),
    (Z.testbit (Go.Flags i) 2), (Z.testbit (Go.Flags i) 3),
    (Z.testbit (Go.Flags i) 4), (Z.testbit (Go.Flags i) 5); reflexivity.
Qed.

(** An attribute file that is empty, or holds white space only, has no
    value. *)
Example attribute_blank :
  attribute (Examples.hostsys [("a", []); ("b", Examples.line "  ")] []) "a"
  = None /\
  attribute (Examples.hostsys [("a", []); ("b", Examples.line "  ")] []) "b"
  = None.
Proof. split; reflexivity. Qed.

(** ** The monad: every source is oblivious *)

Section Monad.

Context {A B : Type}.

Lemma appendLog_app (w : world) (l1 l2 : list event) :
  appendLog (appendLog w l1) l2 = appendLog w (l1 ++ l2).
Proof. unfold appendLog; simpl. now rewrite app_assoc. Qed.

Lemma oblivious_ret (a : A) : oblivious (ret a).
Proof.
  intros [b l]. unfold run, ret, appendLog; simpl. now rewrite app_nil_r.
Qed.

Lemma oblivious_raise (p : panic) : oblivious (@raise A p).
Proof.
  intros [b l]. unfold run, raise, appendLog; simpl. now rewrite app_nil_r.
Qed.

Lemma oblivious_block : oblivious (@block A).
Proof.
  intros [b l]. unfold run, block, appendLog; simpl. now rewrite app_nil_r.
Qed.

Lemma oblivious_run (m : M A) (b : backend) :
  oblivious m ->
  m {| env := b; log := [] |} =
  (fst (run m b), {| env := b; log := snd (run m b) |}).
Proof. intros H. now rewrite (H {| env := b; log := [] |}) at 1. Qed.

Lemma oblivious_bind (m : M A) (k : A -> M B) :
  oblivious m -> (forall a, oblivious (k a)) -> oblivious (bind m k).
Proof.
  intros Hm Hk w. unfold run at 1 2. unfold bind.
  rewrite (oblivious_run m (env w) Hm), (Hm w).
  destruct (run m (env w)) as [[a | p | ] l]; simpl; trivial.
  rewrite (Hk a (appendLog w l)). simpl env.
  change {| env := env w; log := l |}
    with (appendLog {| env := env w; log := [] |} l).
  rewrite (Hk a (appendLog {| env := env w; log := [] |} l)). simpl.
  now rewrite appendLog_app.
Qed.

(** What a sequence returns and does on a backend. *)
Lemma run_bind (m : M A) (k : A -> M B) (b : backend) :
  oblivious m -> (forall a, oblivious (k a)) ->
  run (bind m k) b =
  match run m b with
  | (Done a, l) => (fst (run (k a) b), l ++ snd (run (k a) b))
  | (Panicked p, l) => (Panicked p, l)
  | (Blocked, l) => (Blocked, l)
  end.
Proof.
  intros Hm Hk. unfold run at 1. unfold bind.
  rewrite (oblivious_run m b Hm).
  destruct (run m b) as [[a | p | ] l]; simpl; trivial.
  change {| env := b; log := l |}
    with (appendLog {| env := b; log := [] |} l).
  now rewrite (Hk a).
Qed.

End Monad.

Lemma oblivious_emit (e : event) : oblivious (emit e).
Proof. intros [b l]. reflexivity. Qed.

Lemma oblivious_ask : oblivious ask.
Proof.
  intros [b l]. unfold run, ask, appendLog; simpl. now rewrite app_nil_r.
Qed.

Lemma oblivious_forRange {I S} (body : I -> S -> M (ctl * S)) (xs : list I) :
  (forall x s, oblivious (body x s)) ->
  forall s, oblivious (forRange body xs s).
Proof.
  intros Hbody. induction xs as [| x rest IH]; intros s; simpl.
  - apply oblivious_ret.
  - apply oblivious_bind; [apply Hbody |].
    intros [[|] s']; [apply IH | apply oblivious_ret].
Qed.

Create HintDb oblivious.
#[local] Hint Resolve oblivious_ret oblivious_raise oblivious_block
  oblivious_emit oblivious_ask : oblivious.

(** Sequences are taken apart, and the data they branch on is split. *)
Ltac oblivious_step :=
  match goal with
  | |- forall _, _ => intros ?
  | |- oblivious (bind _ _) => apply oblivious_bind; [| intros ?]
  | |- oblivious (forRange _ _ _) => apply oblivious_forRange; intros ? ?
  | |- oblivious (match ?x with _ => _ end) => destruct x
  | |- oblivious _ => solve [auto with oblivious]
  end.

Ltac prove_oblivious := repeat oblivious_step.

Lemma oblivious_ReadFile (filename : string) :
  oblivious (ioutil_ReadFile filename).
Proof. unfold ioutil_ReadFile. prove_oblivious. Qed.

Lemma oblivious_ReadDir (dirname : string) :
  oblivious (ioutil_ReadDir dirname).
Proof. unfold ioutil_ReadDir. prove_oblivious. Qed.

Lemma oblivious_Interfaces : oblivious net_Interfaces.
Proof. unfold net_Interfaces. prove_oblivious. Qed.

Lemma oblivious_Run (name : string) (args : list string) :
  oblivious (cmd_Run name args).
Proof. unfold cmd_Run. prove_oblivious. Qed.

Lemma oblivious_Printf l format args : oblivious (logger_Printf l format args).
Proof. apply oblivious_emit. Qed.

Lemma oblivious_index (s : list byte) (i : nat) : oblivious (index s i).
Proof. unfold index. prove_oblivious. Qed.

#[local] Hint Resolve oblivious_ReadFile oblivious_ReadDir
  oblivious_Interfaces oblivious_Run oblivious_Printf oblivious_index
  : oblivious.

Lemma oblivious_cpuid : oblivious cpuidSource.Discover.
Proof. unfold cpuidSource.Discover. prove_oblivious. Qed.

Lemma oblivious_rdt : oblivious rdtSource.Discover.
Proof. unfold rdtSource.Discover. prove_oblivious. Qed.

Lemma oblivious_pstate : oblivious pstateSource.Discover.
Proof. unfold pstateSource.Discover. prove_oblivious. Qed.

Lemma oblivious_netid_body name total : oblivious (netidSource.body name total).
Proof. unfold netidSource.body. prove_oblivious. Qed.

Lemma oblivious_netid : oblivious netidSource.Discover.
Proof.
  unfold netidSource.Discover. prove_oblivious. apply oblivious_netid_body.
Qed.

Lemma oblivious_network_body i features :
  oblivious (networkSource.body i features).
Proof. unfold networkSource.body. prove_oblivious. Qed.

Lemma oblivious_network : oblivious networkSource.Discover.
Proof.
  unfold networkSource.Discover. prove_oblivious.
  apply oblivious_network_body.
Qed.

#[local] Hint Resolve oblivious_netid_body oblivious_network_body : oblivious.

(** Unfolds the monad, so that a straight-line source becomes a case
    analysis on the answers of the backend. *)
Ltac unfold_monad :=
  cbv [run bind ret emit ask raise block index ioutil_ReadFile ioutil_ReadDir
       net_Interfaces cmd_Run logger_Printf env log].

(** ** pstateSource *)

(** C4: when the flag file is read and starts with the byte '0', the result
    is the list with "turbo" and no error; when it starts with any other
    byte, the result is the empty list and no error; when it cannot be read,
    the result is no list and an error. *)
Theorem pstate_Discover_first_byte (b : backend) :
  (forall rest,
      fileContent b pstateSource.no_turbo = inl (x30 :: rest) ->
      run pstateSource.Discover b =
      (Done (Some ["turbo"], None), [ReadFile pstateSource.no_turbo])) /\
  (forall b0 rest,
      fileContent b pstateSource.no_turbo = inl (b0 :: rest) ->
      b0 <> x30 ->
      run pstateSource.Discover b =
      (Done (Some [], None), [ReadFile pstateSource.no_turbo])) /\
  (forall err,
      fileContent b pstateSource.no_turbo = inr err ->
      run pstateSource.Discover b =
      (Done (None,
             Some (Errorf "can't detect whether turbo boost is enabled: %s"
                     err)),
       [ReadFile pstateSource.no_turbo])).
Proof.
  unfold pstateSource.Discover. repeat split.
  - intros rest H. unfold_monad. now rewrite H.
  - intros b0 rest H Hb0. unfold_monad. rewrite H. simpl.
    destruct (Byte.eqb b0 x30) eqn:E; trivial.
    apply Byte.byte_dec_bl in E. contradiction.
  - intros err H. unfold_monad. now rewrite H.
Qed.

Lemma pstate_Discover_first_byte_witness :
  run pstateSource.Discover (Examples.flag (Examples.line "0")) =
  (Done (Some ["turbo"], None), [ReadFile pstateSource.no_turbo]) /\
  run pstateSource.Discover (Examples.flag (Examples.line "1")) =
  (Done (Some [], None), [ReadFile pstateSource.no_turbo]) /\
  run pstateSource.Discover Examples.pod =
  (Done (None,
         Some (Errorf "can't detect whether turbo boost is enabled: %s"
                 Examples.noent)),
   [ReadFile pstateSource.no_turbo]).
Proof.
  split; [| split].
  - apply (proj1 (pstate_Discover_first_byte _) [x0a]). reflexivity.
  - apply (proj1 (proj2 (pstate_Discover_first_byte _)) x31 [x0a]).
    + reflexivity.
    + discriminate.
  - apply (proj2 (proj2 (pstate_Discover_first_byte _)) Examples.noent).
    reflexivity.
Defined.

(** C9: when the flag file is read successfully but is empty, Discover
    returns nothing: taking the first byte is out of range and panics.  For
    a file that can be read, Discover returns exactly when the file holds
    at least one byte. *)
Theorem pstate_Discover_empty_file_panics (b : backend) :
  (fileContent b pstateSource.no_turbo = inl [] ->
   run pstateSource.Discover b =
   (Panicked (IndexOutOfRange 0 0), [ReadFile pstateSource.no_turbo])) /\
  (forall bytes,
      fileContent b pstateSource.no_turbo = inl bytes ->
      (exists r, fst (run pstateSource.Discover b) = Done r) <-> bytes <> []).
Proof.
  unfold pstateSource.Discover. split.
  - intros H. unfold_monad. now rewrite H.
  - intros bytes H. unfold_monad. rewrite H.
    destruct bytes as [| b0 rest]; simpl; split.
    + intros [r Hr]. discriminate.
    + congruence.
    + discriminate.
    + intros _. eexists. reflexivity.
Qed.

Lemma pstate_Discover_empty_file_panics_witness :
  run pstateSource.Discover Examples.emptyFlag =
  (Panicked (IndexOutOfRange 0 0), [ReadFile pstateSource.no_turbo]) /\
  ((exists r, fst (run pstateSource.Discover Examples.node) = Done r) <->
   Examples.line "0" <> []).
Proof.
  split.
  - apply (proj1 (pstate_Discover_empty_file_panics Examples.emptyFlag)).
    reflexivity.
  - apply (proj2 (pstate_Discover_empty_file_panics Examples.node)).
    reflexivity.
Defined.

(** ** rdtSource *)

(** C5: whatever way the three helpers end (a zero status, a non-zero status
    or a failure to start), Discover returns no error and exactly the tokens
    of the helpers that exited with status zero, in the order RDTMON,
    RDTL3CA, RDTL2CA; all three helpers are run whatever the others gave. *)
Theorem rdt_Discover_tokens (b : backend) (mon l3 l2 : exit) :
  process b "bash" (rdtSpec.helper "mon-discovery") = mon ->
  process b "bash" (rdtSpec.helper "l3-alloc-discovery") = l3 ->
  process b "bash" (rdtSpec.helper "l2-alloc-discovery") = l2 ->
  rdtSpec.terminates mon -> rdtSpec.terminates l3 -> rdtSpec.terminates l2 ->
  exists evs,
    run rdtSource.Discover b =
    (Done (Some (rdtSpec.tokens mon l3 l2), None), evs) /\
    calls evs = rdtSpec.runs.
Proof.
  unfold rdtSpec.helper, rdtSpec.terminates, rdtSource.Discover.
  intros Hmon Hl3 Hl2 Tmon Tl3 Tl2.
  destruct mon as [c1 | msg1 |]; [| | contradiction];
    destruct l3 as [c2 | msg2 |]; try contradiction;
    destruct l2 as [c3 | msg3 |]; try contradiction;
    unfold rdtSpec.tokens; simpl;
    repeat (unfold_monad;
            first [ rewrite Hmon | rewrite Hl3 | rewrite Hl2
                  | match goal with
                    | |- context [if ?c =? 0 then None else _] =>
                      destruct (c =? 0)
                    end ]);
    eexists; split; reflexivity.
Qed.

Lemma rdt_Discover_tokens_witness :
  (exists evs,
      run rdtSource.Discover Examples.node =
      (Done (Some ["RDTMON"; "RDTL2CA"], None), evs) /\
      calls evs = rdtSpec.runs) /\
  (exists evs,
      run rdtSource.Discover Examples.pod = (Done (Some [], None), evs) /\
      calls evs = rdtSpec.runs).
Proof.
  split.
  - apply (rdt_Discover_tokens Examples.node (Exited 0) (Exited 1) (Exited 0));
      try reflexivity; discriminate.
  - apply (rdt_Discover_tokens Examples.pod
             (NotStarted "executable file not found")
             (NotStarted "executable file not found")
             (NotStarted "executable file not found"));
      try reflexivity; discriminate.
Defined.

(** *** Sources that start no process *)

Lemma noProcess_ret {A} (a : A) : noProcess (ret a).
Proof. intros b. split; [discriminate | intros name args []]. Qed.

Lemma noProcess_raise {A} (p : panic) : noProcess (@raise A p).
Proof. intros b. split; [discriminate | intros name args []]. Qed.

Lemma noProcess_ask : noProcess ask.
Proof. intros b. split; [discriminate | intros name args []]. Qed.

Lemma noProcess_ReadFile filename : noProcess (ioutil_ReadFile filename).
Proof.
  intros b. split; [discriminate | intros name args [H | []]; discriminate].
Qed.

Lemma noProcess_ReadDir dirname : noProcess (ioutil_ReadDir dirname).
Proof.
  intros b. split; [discriminate | intros name args [H | []]; discriminate].
Qed.

Lemma noProcess_Interfaces : noProcess net_Interfaces.
Proof.
  intros b. split; [discriminate | intros name args [H | []]; discriminate].
Qed.

Lemma noProcess_Printf l format args : noProcess (logger_Printf l format args).
Proof.
  intros b. split; [discriminate | intros name a [H | []]; discriminate].
Qed.

Lemma noProcess_index s i : noProcess (index s i).
Proof.
  unfold index. destruct (nth_error s i);
    [apply noProcess_ret | apply noProcess_raise].
Qed.

Lemma noProcess_bind {A B} (m : M A) (k : A -> M B) :
  oblivious m -> (forall a, oblivious (k a)) ->
  noProcess m -> (forall a, noProcess (k a)) -> noProcess (bind m k).
Proof.
  intros Om Ok Hm Hk b. rewrite (run_bind m k b Om Ok).
  destruct (Hm b) as [Hret Hlog].
  destruct (run m b) as [[a | p |] l]; simpl in *.
  - destruct (Hk a b) as [Hret' Hlog']. split; [assumption |].
    intros name args Hin. apply in_app_or in Hin as [Hin | Hin].
    + exact (Hlog _ _ Hin).
    + exact (Hlog' _ _ Hin).
  - split; [discriminate | assumption].
  - contradiction.
Qed.

Lemma noProcess_forRange {I S} (body : I -> S -> M (ctl * S)) (xs : list I) :
  (forall x s, oblivious (body x s)) ->
  (forall x s, noProcess (body x s)) ->
  forall s, noProcess (forRange body xs s).
Proof.
  intros Ob Hb. induction xs as [| x rest IH]; intros s; simpl.
  - apply noProcess_ret.
  - apply noProcess_bind; trivial.
    + intros [[|] s']; [| apply oblivious_ret].
      now apply oblivious_forRange.
    + intros [[|] s']; [apply IH | apply noProcess_ret].
Qed.

Create HintDb noprocess.
#[local] Hint Resolve noProcess_ret noProcess_raise noProcess_ask
  noProcess_ReadFile noProcess_ReadDir noProcess_Interfaces noProcess_Printf
  noProcess_index : noprocess.

Ltac noProcess_step :=
  match goal with
  | |- noProcess (bind _ _) =>
    apply noProcess_bind;
    [solve [prove_oblivious] | intros ?; solve [prove_oblivious] | | intros ?]
  | |- noProcess (forRange _ _ _) =>
    apply noProcess_forRange; [solve [auto with oblivious] | intros ? ?]
  | |- noProcess (match ?x with _ => _ end) => destruct x
  | |- noProcess _ => solve [auto with noprocess]
  end.

Lemma noProcess_cpuid : noProcess cpuidSource.Discover.
Proof. unfold cpuidSource.Discover. repeat noProcess_step. Qed.

Lemma noProcess_pstate : noProcess pstateSource.Discover.
Proof. unfold pstateSource.Discover. repeat noProcess_step. Qed.

Lemma noProcess_netid : noProcess netidSource.Discover.
Proof.
  unfold netidSource.Discover. repeat noProcess_step.
  unfold netidSource.body. repeat noProcess_step.
Qed.

Lemma noProcess_network : noProcess networkSource.Discover.
Proof.
  unfold networkSource.Discover. repeat noProcess_step.
  unfold networkSource.body. repeat noProcess_step.
Qed.

(** Discover waits for ever exactly when one of the helpers never exits. *)
Lemma rdt_Discover_blocked (b : backend) :
  fst (run rdtSource.Discover b) = Blocked <->
  process b "bash" (rdtSpec.helper "mon-discovery") = NeverExits \/
  process b "bash" (rdtSpec.helper "l3-alloc-discovery") = NeverExits \/
  process b "bash" (rdtSpec.helper "l2-alloc-discovery") = NeverExits.
Proof.
  unfold rdtSpec.helper, rdtSource.Discover.
  destruct (process b "bash" ["-c"; Go.Join RDTBin "mon-discovery"])
    as [c1 | msg1 |] eqn:Hmon;
    destruct (process b "bash" ["-c"; Go.Join RDTBin "l3-alloc-discovery"])
    as [c2 | msg2 |] eqn:Hl3;
    destruct (process b "bash" ["-c"; Go.Join RDTBin "l2-alloc-discovery"])
    as [c3 | msg3 |] eqn:Hl2;
    repeat (unfold_monad;
            first [ rewrite Hmon | rewrite Hl3 | rewrite Hl2
                  | match goal with
                    | |- context [if ?c =? 0 then None else _] =>
                      destruct (c =? 0)
                    end ]);
    simpl; intuition discriminate.
Qed.

(** C8, as stated, fails: the helpers run under no timeout, and with a
    monitoring helper that never exits Discover starts it and never
    returns. *)
Lemma rdt_Discover_unbounded :
  run rdtSource.Discover Examples.stuck =
  (Blocked, [Run "bash" (rdtSpec.helper "mon-discovery")]) /\
  ~ bounded rdt.
Proof.
  split; [reflexivity |].
  intros H. now apply (H Examples.stuck).
Qed.

(** C8, amended: the rdt source runs its helpers with no timeout, so that
    Discover waits for ever exactly when one of the three helpers never
    exits, and returns when all three end; the other sources start no
    process and never wait. *)
Theorem rdt_Discover_waits_for_helpers (b : backend) :
  (fst (run rdtSource.Discover b) = Blocked <->
   process b "bash" (rdtSpec.helper "mon-discovery") = NeverExits \/
   process b "bash" (rdtSpec.helper "l3-alloc-discovery") = NeverExits \/
   process b "bash" (rdtSpec.helper "l2-alloc-discovery") = NeverExits) /\
  (forall s,
      In s [cpuid; pstate; netid; network] ->
      fst (run (fsDiscover s) b) <> Blocked /\
      forall name args, ~ In (Run name args) (snd (run (fsDiscover s) b))).
Proof.
  split; [apply rdt_Discover_blocked |].
  intros s [<- | [<- | [<- | [<- | []]]]]; simpl.
  - apply noProcess_cpuid.
  - apply noProcess_pstate.
  - apply noProcess_netid.
  - apply noProcess_network.
Qed.

Lemma rdt_Discover_waits_for_helpers_witness :
  fst (run rdtSource.Discover Examples.stuck) = Blocked /\
  fst (run networkSource.Discover Examples.stuck) <> Blocked.
Proof.
  split.
  - apply (proj1 (rdt_Discover_waits_for_helpers Examples.stuck)).
    left. reflexivity.
  - apply (proj2 (rdt_Discover_waits_for_helpers Examples.stuck) network).
    simpl. tauto.
Defined.

(** ** networkSource of src/sources.go ("netid") *)

Lemma run_ReadFile (b : backend) (filename : string) :
  run (ioutil_ReadFile filename) b =
  (Done (fileContent b filename), [ReadFile filename]).
Proof. reflexivity. Qed.

Lemma run_ret {A} (a : A) (b : backend) : run (ret a) b = (Done a, []).
Proof. reflexivity. Qed.

(** One turn of the loop reads the attribute of the entry and adds its value
    to the total, if it has one. *)
Lemma netid_body (b : backend) (name : string) (total : Z) :
  run (netidSource.body name total) b =
  (Done (Continue,
         match netidSpec.numVfs b name with
         | Some n => Go.add total n
         | None => total
         end),
   [ReadFile (netidSource.numVfsPath name)]).
Proof.
  unfold netidSource.body, netidSpec.numVfs, attribute.
  rewrite run_bind by prove_oblivious. rewrite run_ReadFile.
  destruct (fileContent b (netidSource.numVfsPath name)) as [bytes | err].
  - destruct bytes as [| b0 rest]; [reflexivity |].
    change (Nat.eqb (length (b0 :: rest)) 0) with false. cbv iota.
    now destruct (strconv_Atoi (string_of_list_byte (Go.TrimSpace (b0 :: rest)))).
  - reflexivity.
Qed.

Lemma netid_loop (b : backend) (names : list string) :
  forall total,
    run (forRange netidSource.body names total) b =
    (Done (netidSpec.runningTotal b names total), netidSpec.reads names).
Proof.
  induction names as [| name rest IH]; intros total; [reflexivity |].
  cbn [forRange]. rewrite run_bind by prove_oblivious.
  rewrite netid_body. now rewrite IH.
Qed.

Lemma netid_Discover_run (b : backend) (names : list string) :
  dirEntries b netidSpec.dir = inl names ->
  run netidSource.Discover b =
  (Done (Some (if netidSpec.grandTotal b names >? 0 then ["SRIOV"] else []),
         None),
   ReadDir netidSpec.dir :: netidSpec.reads names).
Proof.
  intros H. unfold netidSource.Discover.
  rewrite run_bind by prove_oblivious.
  change (run (ioutil_ReadDir "/hostsys/class/net") b)
    with (Done (dirEntries b netidSpec.dir), [ReadDir netidSpec.dir]).
  rewrite H. rewrite run_bind by prove_oblivious.
  rewrite netid_loop, run_ret. unfold netidSpec.grandTotal. simpl.
  now rewrite app_nil_r.
Qed.

Lemma wrap_add_l (a n : Z) : Go.wrap (Go.wrap a + n) = Go.wrap (a + n).
Proof.
  unfold Go.wrap. f_equal.
  replace ((a + 2 ^ 63) mod 2 ^ 64 - 2 ^ 63 + n + 2 ^ 63)
    with ((a + 2 ^ 63) mod 2 ^ 64 + n) by ring.
  rewrite Z.add_mod_idemp_l by lia. f_equal. ring.
Qed.

Lemma wrap_small (z : Z) : Go.minInt <= z <= Go.maxInt -> Go.wrap z = z.
Proof.
  unfold Go.wrap, Go.minInt, Go.maxInt. intros H.
  rewrite Z.mod_small; lia.
Qed.

(** The total the loop keeps is the exact sum of the values, wrapped to the
    range of [int]. *)
Lemma runningTotal_wrap (b : backend) (names : list string) :
  forall total,
    netidSpec.runningTotal b names (Go.wrap total) =
    Go.wrap (total + netidSpec.exactTotal b names).
Proof.
  unfold netidSpec.runningTotal.
  induction names as [| name rest IH]; intros total; simpl.
  - f_equal. ring.
  - destruct (netidSpec.numVfs b name) as [n |].
    + unfold Go.add. rewrite wrap_add_l, IH. f_equal. ring.
    + apply IH.
Qed.

Lemma grandTotal_exact (b : backend) (names : list string) :
  Go.minInt <= netidSpec.exactTotal b names <= Go.maxInt ->
  netidSpec.grandTotal b names = netidSpec.exactTotal b names.
Proof.
  intros H. unfold netidSpec.grandTotal.
  change 0 with (Go.wrap 0) at 1. rewrite runningTotal_wrap.
  now apply wrap_small.
Qed.

Lemma netidClaim_sum (b : backend) (names : list string) :
  netidClaim.sum b names = netidSpec.exactTotal b names.
Proof. induction names as [| name rest IH]; simpl; trivial. now rewrite IH. Qed.

Lemma netidClaim_total (b : backend) (names : list string) :
  netidClaim.total b names = netidSpec.grandTotal b names.
Proof.
  unfold netidClaim.total. rewrite netidClaim_sum.
  change (Go.wrap (netidSpec.exactTotal b names) =
          netidSpec.runningTotal b names (Go.wrap 0)).
  now rewrite runningTotal_wrap.
Qed.

(** C2: in the mounted mode the probe reads the file
    /hostsys/class/net/<entry>/device/sriov_numvfs of every entry of
    /hostsys/class/net, in the order of the listing, and keeps a running
    total of the values that parse; the total is an [int], that is the
    exact sum of the values brought into the 64-bit range, and is the exact
    sum whenever that fits.  The result is the single token "SRIOV" if and
    only if the grand total is strictly positive, and the empty list
    otherwise. *)
Theorem netid_Discover_grand_total (b : backend) (names : list string) :
  dirEntries b "/hostsys/class/net" = inl names ->
  exists features,
    run netidSource.Discover b =
    (Done (Some features, None),
     ReadDir "/hostsys/class/net" :: netidClaim.reads names) /\
    (features = ["SRIOV"] <-> 0 < netidClaim.total b names) /\
    (features = [] <-> netidClaim.total b names <= 0) /\
    (- 2 ^ 63 <= netidClaim.sum b names < 2 ^ 63 ->
     netidClaim.total b names = netidClaim.sum b names).
Proof.
  intros H. eexists. split; [apply (netid_Discover_run b names H) |].
  rewrite netidClaim_total. split; [| split].
  - destruct (netidSpec.grandTotal b names >? 0) eqn:E.
    + apply Z.gtb_lt in E. tauto.
    + rewrite Z.gtb_ltb in E. apply Z.ltb_ge in E.
      split; [discriminate | lia].
  - destruct (netidSpec.grandTotal b names >? 0) eqn:E.
    + apply Z.gtb_lt in E. split; [discriminate | lia].
    + rewrite Z.gtb_ltb in E. apply Z.ltb_ge in E. tauto.
  - intros Hfit. rewrite netidClaim_sum in *. apply grandTotal_exact.
    unfold Go.minInt, Go.maxInt. lia.
Qed.

Lemma netid_Discover_grand_total_witness :
  run netidSource.Discover Examples.pod =
  (Done (Some ["SRIOV"], None),
   [ReadDir "/hostsys/class/net";
    ReadFile "/hostsys/class/net/eth0/device/sriov_numvfs";
    ReadFile "/hostsys/class/net/eth1/device/sriov_numvfs";
    ReadFile "/hostsys/class/net/eth2/device/sriov_numvfs";
    ReadFile "/hostsys/class/net/eth3/device/sriov_numvfs";
    ReadFile "/hostsys/class/net/lo/device/sriov_numvfs"]) /\
  netidClaim.total Examples.pod ["eth0"; "eth1"; "eth2"; "eth3"; "lo"] = 2 /\
  netidClaim.sum Examples.pod ["eth0"; "eth1"; "eth2"; "eth3"; "lo"] = 2.
Proof.
  destruct (netid_Discover_grand_total Examples.pod
              ["eth0"; "eth1"; "eth2"; "eth3"; "lo"] eq_refl)
    as [features [Hrun [Hpos [_ Hfit]]]].
  assert (Hsum : netidClaim.sum Examples.pod
                   ["eth0"; "eth1"; "eth2"; "eth3"; "lo"] = 2)
    by reflexivity.
  assert (Htotal : netidClaim.total Examples.pod
                     ["eth0"; "eth1"; "eth2"; "eth3"; "lo"] = 2)
    by (rewrite Hfit; rewrite Hsum; [reflexivity | lia]).
  assert (Hfeatures : features = ["SRIOV"])
    by (apply Hpos; rewrite Htotal; lia).
  rewrite Hrun, Hfeatures. repeat split; trivial.
Defined.

(** C10: in the mounted mode a value that parses as a negative integer is
    not skipped but added to the running total; with one entry that reads
    -4 and another that reads 3 the grand total is -1 and "SRIOV" is left
    out although the second entry has a positive number configured. *)
Theorem netid_negative_values_are_added :
  (forall b name total n,
      netidSpec.numVfs b name = Some n -> n < 0 ->
      run (netidSource.body name total) b =
      (Done (Continue, Go.add total n),
       [ReadFile (netidSource.numVfsPath name)])) /\
  (dirEntries Examples.negativePod netidSpec.dir = inl ["eth0"; "eth1"] /\
   netidSpec.numVfs Examples.negativePod "eth0" = Some (-4) /\
   netidSpec.numVfs Examples.negativePod "eth1" = Some 3 /\
   netidSpec.grandTotal Examples.negativePod ["eth0"; "eth1"] = -1 /\
   run netidSource.Discover Examples.negativePod =
   (Done (Some [], None),
    ReadDir netidSpec.dir :: netidSpec.reads ["eth0"; "eth1"])).
Proof.
  split.
  - intros b name total n H _. rewrite netid_body. now rewrite H.
  - repeat split; reflexivity.
Qed.

Lemma netid_negative_values_are_added_witness :
  run (netidSource.body "eth0" 0) Examples.negativePod =
  (Done (Continue, Go.add 0 (-4)), [ReadFile (netidSource.numVfsPath "eth0")]).
Proof.
  apply (proj1 netid_negative_values_are_added); [reflexivity | lia].
Defined.

(** ** networkSource of src/unnamed/part_000 ("network") *)

Ltac use_answers :=
  unfold_monad;
  repeat match goal with
         | H : _ = _ |- _ => rewrite H
         end;
  unfold_monad.

Ltac split_answers b :=
  repeat (use_answers;
          match goal with
          | |- context [match fileContent b ?p with _ => _ end] =>
            destruct (fileContent b p) eqn:?
          | |- context [match strconv_Atoi ?s with _ => _ end] =>
            destruct (strconv_Atoi s) eqn:?
          | |- context [if ?t >? 0 then _ else _] => destruct (t >? 0) eqn:?
          | |- context [if ?t =? 0 then _ else _] => destruct (t =? 0) eqn:?
          end);
  use_answers.

(** One turn of the loop: the tokens it appends, whether it leaves the loop,
    and the files it reads. *)
Lemma network_body (b : backend) (i : Go.Interface) (features : list string) :
  exists evs,
    run (networkSource.body i features) b =
    (Done (if networkSpec.configured b i then Break else Continue,
           features ++ networkSpec.tokens b i),
     evs) /\
    calls evs = networkSpec.reads b i.
Proof.
  unfold networkSource.body, networkSpec.tokens, networkSpec.reads,
    networkSpec.configured, networkSpec.supported, networkSpec.totalVfs,
    networkSpec.numVfs, attribute, positive.
  destruct (networkSource.upNotLoopback i); cbv [andb];
    split_answers b;
    rewrite <- ?app_assoc, ?app_nil_r;
    eexists; split; reflexivity.
Qed.

Lemma network_loop (b : backend) (ifs : list Go.Interface) :
  forall features,
  exists evs,
    run (forRange networkSource.body ifs features) b =
    (Done (features ++ flat_map (networkSpec.tokens b) (networkSpec.scanned b ifs)),
     evs) /\
    calls evs = flat_map (networkSpec.reads b) (networkSpec.scanned b ifs).
Proof.
  induction ifs as [| i rest IH]; intros features.
  - exists []. simpl. now rewrite app_nil_r.
  - cbn [forRange networkSpec.scanned].
    rewrite run_bind by prove_oblivious.
    destruct (network_body b i features) as [evs [Hrun Hcalls]].
    rewrite Hrun. destruct (networkSpec.configured b i).
    + exists (evs ++ []). rewrite run_ret. simpl.
      rewrite !app_nil_r. now split.
    + destruct (IH (features ++ networkSpec.tokens b i)) as [evs' [Hrun' Hcalls']].
      exists (evs ++ evs'). rewrite Hrun'. simpl.
      rewrite <- app_assoc. split; trivial.
      unfold calls in *. rewrite filter_app. now f_equal.
Qed.

Lemma network_Discover_run (b : backend) (ifs : list Go.Interface) :
  netInterfaces b = inl ifs ->
  exists evs,
    run networkSource.Discover b =
    (Done (Some (flat_map (networkSpec.tokens b) (networkSpec.scanned b ifs)),
           None),
     Interfaces :: evs) /\
    calls evs = flat_map (networkSpec.reads b) (networkSpec.scanned b ifs).
Proof.
  intros H. unfold networkSource.Discover.
  rewrite run_bind by prove_oblivious.
  change (run net_Interfaces b) with (Done (netInterfaces b), [Interfaces]).
  rewrite H. rewrite run_bind by prove_oblivious.
  destruct (network_loop b ifs []) as [evs [Hrun Hcalls]].
  rewrite Hrun, run_ret. exists evs. simpl. rewrite app_nil_r. now split.
Qed.

Lemma network_Discover_error (b : backend) (err : error) :
  netInterfaces b = inr err ->
  run networkSource.Discover b =
  (Done (None,
         Some (Errorf "can't obtain the network interfaces details: %s" err)),
   [Interfaces]).
Proof.
  intros H. unfold networkSource.Discover. unfold_monad. now rewrite H.
Qed.

Lemma netid_Discover_error (b : backend) (err : error) :
  dirEntries b netidSpec.dir = inr err ->
  run netidSource.Discover b =
  (Done (None, Some (Errorf "can't obtain the network interfaces: %s" err)),
   [ReadDir netidSpec.dir]).
Proof.
  unfold netidSpec.dir. intros H. unfold netidSource.Discover. unfold_monad.
  now rewrite H.
Qed.

(** Once a configured interface is reached the loop is left: what follows
    it in the list changes neither the result nor the log. *)
Lemma network_loop_stops (b : backend) (i : Go.Interface)
  (pre post : list Go.Interface) :
  networkSpec.configured b i = true ->
  forall features,
    run (forRange networkSource.body (pre ++ i :: post) features) b =
    run (forRange networkSource.body (pre ++ [i]) features) b.
Proof.
  intros Hi. induction pre as [| j pre IH]; intros features.
  - cbn [app forRange]. rewrite !run_bind by prove_oblivious.
    destruct (network_body b i features) as [evs [Hrun _]].
    rewrite Hrun, Hi. reflexivity.
  - cbn [app forRange]. rewrite !run_bind by prove_oblivious.
    destruct (run (networkSource.body j features) b) as [[[[|] s'] | p |] l];
      trivial.
    now rewrite IH.
Qed.

Lemma scanned_unconfigured (b : backend) (pre rest : list Go.Interface) :
  forallb (fun j => negb (networkSpec.configured b j)) pre = true ->
  networkSpec.scanned b (pre ++ rest) = pre ++ networkSpec.scanned b rest.
Proof.
  induction pre as [| j pre IH]; simpl; trivial.
  intros H. apply andb_prop in H as [Hj Hpre].
  apply negb_true_iff in Hj. rewrite Hj. now rewrite IH.
Qed.

Lemma count_app (token : string) (l1 l2 : list string) :
  count token (l1 ++ l2) = (count token l1 + count token l2)%nat.
Proof. apply count_occ_app. Qed.

Lemma configured_supported (b : backend) (i : Go.Interface) :
  networkSpec.configured b i = true -> networkSpec.supported b i = true.
Proof.
  unfold networkSpec.configured. intros H. now apply andb_prop in H.
Qed.

(** "sriov-configured" is the token of the configured interface alone. *)
Lemma count_configured_tokens (b : backend) (i : Go.Interface) :
  count "sriov-configured" (networkSpec.tokens b i) =
  if networkSpec.configured b i then 1%nat else 0%nat.
Proof.
  unfold networkSpec.tokens.
  destruct (networkSpec.configured b i); [reflexivity |].
  now destruct (networkSpec.supported b i).
Qed.

(** "sriov" is appended once for every supported interface. *)
Lemma count_supported_tokens (b : backend) (i : Go.Interface) :
  count "sriov" (networkSpec.tokens b i) =
  if networkSpec.supported b i then 1%nat else 0%nat.
Proof.
  unfold networkSpec.tokens.
  destruct (networkSpec.configured b i) eqn:E.
  - now rewrite (configured_supported b i E).
  - now destruct (networkSpec.supported b i).
Qed.

Lemma count_configured_scanned (b : backend) (ifs : list Go.Interface) :
  (count "sriov-configured"
     (flat_map (networkSpec.tokens b) (networkSpec.scanned b ifs)) <= 1)%nat.
Proof.
  induction ifs as [| i rest IH]; simpl; [lia |].
  destruct (networkSpec.configured b i) eqn:E; simpl;
    rewrite ?app_nil_r, ?count_app, count_configured_tokens, E; lia.
Qed.

Lemma count_supported_flat_map (b : backend) (l : list Go.Interface) :
  count "sriov" (flat_map (networkSpec.tokens b) l) =
  length (filter (networkSpec.supported b) l).
Proof.
  induction l as [| i rest IH]; simpl; trivial.
  rewrite count_app, count_supported_tokens, IH.
  now destruct (networkSpec.supported b i).
Qed.

(** C1, as stated, fails: on the machine with A (total 0), B (total 4,
    configured 0) and C (total 8, configured 2) the token "sriov" is
    appended for B and again for C. *)
Lemma network_Discover_present_twice :
  fst (run networkSource.Discover Examples.node) =
  Done (Some ["sriov"; "sriov"; "sriov-configured"], None) /\
  ~ presentExactlyOnce Examples.node.
Proof.
  split; [reflexivity |].
  intros H.
  specialize (H Examples.ethB 4 ["sriov"; "sriov"; "sriov-configured"] None
                (snd (run networkSource.Discover Examples.node))).
  assert (E : count "sriov" ["sriov"; "sriov"; "sriov-configured"] = 1%nat).
  { apply H.
    - reflexivity.
    - vm_compute. tauto.
    - reflexivity.
    - lia. }
  discriminate E.
Qed.

(** A file read for an interface that the loop reaches. *)
Lemma read_supported (b : backend) (i j : Go.Interface) (t : Z) :
  In (ReadFile (networkSource.totalVfsPath (Go.Name i))) (networkSpec.reads b j) ->
  networkSpec.totalVfs b i = Some t -> 0 < t ->
  networkSpec.supported b j = true.
Proof.
  unfold networkSpec.reads. intros Hin Ht Hpos.
  destruct (networkSource.upNotLoopback j) eqn:Hup; [| contradiction].
  destruct Hin as [Heq | Hin].
  - assert (Hpath : networkSource.totalVfsPath (Go.Name j) =
                    networkSource.totalVfsPath (Go.Name i)) by congruence.
    unfold networkSpec.supported, networkSpec.totalVfs in *.
    rewrite Hpath, Ht, Hup. simpl. now apply Z.gtb_lt.
  - now destruct (networkSpec.supported b j).
Qed.

(** C1, amended: in the direct mode, when the total of at least one
    examined interface parses to a positive value, the result contains
    "sriov"; the token is appended once for every supported interface that
    the loop reaches, so that it occurs as many times as there are such
    interfaces, and at least once.  The mounted mode reads no total at all:
    apart from the directory it reads sriov_numvfs files only, and its only
    token is "SRIOV". *)
Theorem network_Discover_present_per_interface (b : backend) :
  (forall ifs i t,
      netInterfaces b = inl ifs ->
      In (ReadFile (networkSource.totalVfsPath (Go.Name i)))
         (snd (run networkSource.Discover b)) ->
      networkSpec.totalVfs b i = Some t ->
      0 < t ->
      exists features,
        fst (run networkSource.Discover b) = Done (Some features, None) /\
        In "sriov" features /\
        count "sriov" features =
        length (filter (networkSpec.supported b) (networkSpec.scanned b ifs)) /\
        (1 <= count "sriov" features)%nat) /\
  (forall e,
      In e (snd (run netidSource.Discover b)) ->
      e = ReadDir netidSpec.dir \/
      exists name, e = ReadFile (netidSource.numVfsPath name)) /\
  (forall features err,
      fst (run netidSource.Discover b) = Done (Some features, err) ->
      features = [] \/ features = ["SRIOV"]).
Proof.
  split; [| split].
  - intros ifs i t Hifs Hin Ht Hpos.
    destruct (network_Discover_run b ifs Hifs) as [evs [Hrun Hcalls]].
    rewrite Hrun in *. simpl in Hin. destruct Hin as [Hin | Hin]; [discriminate |].
    assert (Hcall : In (ReadFile (networkSource.totalVfsPath (Go.Name i)))
                       (calls evs))
      by (apply filter_In; now split).
    rewrite Hcalls in Hcall. apply in_flat_map in Hcall as [j [Hj Hread]].
    pose proof (read_supported b i j t Hread Ht Hpos) as Hsup.
    assert (Hlen : (1 <= length (filter (networkSpec.supported b)
                                   (networkSpec.scanned b ifs)))%nat).
    { assert (Hf : In j (filter (networkSpec.supported b)
                           (networkSpec.scanned b ifs)))
        by (apply filter_In; now split).
      destruct (filter (networkSpec.supported b) (networkSpec.scanned b ifs));
        [contradiction | simpl; lia]. }
    eexists. split; [reflexivity |].
    rewrite count_supported_flat_map. repeat split; trivial.
    apply (count_occ_In string_dec).
    change (count "sriov" (flat_map (networkSpec.tokens b)
                             (networkSpec.scanned b ifs)) > 0)%nat.
    rewrite count_supported_flat_map. lia.
  - intros e He. destruct (dirEntries b netidSpec.dir) as [names | err] eqn:E.
    + rewrite (netid_Discover_run b names E) in He. simpl in He.
      destruct He as [<- | He]; [now left | right].
      unfold netidSpec.reads in He. apply in_map_iff in He as [name [<- _]].
      now exists name.
    + rewrite (netid_Discover_error b err E) in He. simpl in He.
      destruct He as [<- | []]. now left.
  - intros features err H.
    destruct (dirEntries b netidSpec.dir) as [names | e] eqn:E.
    + rewrite (netid_Discover_run b names E) in H. simpl in H.
      injection H as <- _.
      destruct (netidSpec.grandTotal b names >? 0); auto.
    + rewrite (netid_Discover_error b e E) in H. discriminate.
Qed.

Lemma network_Discover_present_per_interface_witness :
  exists features,
    fst (run networkSource.Discover Examples.node) =
    Done (Some features, None) /\
    In "sriov" features /\
    count "sriov" features =
    length (filter (networkSpec.supported Examples.node)
              (networkSpec.scanned Examples.node
                 [Examples.lo; Examples.ethA; Examples.ethX; Examples.ethB;
                  Examples.ethC; Examples.ethD])) /\
    (1 <= count "sriov" features)%nat.
Proof.
  apply (proj1 (network_Discover_present_per_interface Examples.node)
           [Examples.lo; Examples.ethA; Examples.ethX; Examples.ethB;
            Examples.ethC; Examples.ethD] Examples.ethC 8).
  - reflexivity.
  - vm_compute. tauto.
  - reflexivity.
  - lia.
Defined.

(** C3: in the direct mode the scan stops at the first interface that is
    examined and whose configured number parses to a positive integer:
    "sriov-configured" is appended for it, its sriov_numvfs file is the last
    file read, nothing that follows it in the list has any effect on the
    result or on the log, and "sriov-configured" occurs at most once in any
    result. *)
Theorem network_Discover_stops_at_first_configured :
  (forall b features err evs,
      run networkSource.Discover b = (Done (Some features, err), evs) ->
      (count "sriov-configured" features <= 1)%nat) /\
  (forall b pre i post,
      netInterfaces b = inl (pre ++ i :: post) ->
      networkSpec.configured b i = true ->
      forallb (fun j => negb (networkSpec.configured b j)) pre = true ->
      (exists evs,
          run networkSource.Discover b =
          (Done (Some (flat_map (networkSpec.tokens b) pre
                       ++ ["sriov"; "sriov-configured"]), None),
           Interfaces :: evs) /\
          calls evs =
          flat_map (networkSpec.reads b) pre
          ++ [ReadFile (networkSource.totalVfsPath (Go.Name i));
              ReadFile (networkSource.numVfsPath (Go.Name i))]) /\
      count "sriov-configured" (flat_map (networkSpec.tokens b) pre) = 0%nat /\
      forall features,
        run (forRange networkSource.body (pre ++ i :: post) features) b =
        run (forRange networkSource.body (pre ++ [i]) features) b).
Proof.
  split.
  - intros b features err evs H.
    destruct (netInterfaces b) as [ifs | e] eqn:E.
    + destruct (network_Discover_run b ifs E) as [evs' [Hrun _]].
      rewrite Hrun in H. injection H as <- _ _.
      apply count_configured_scanned.
    + rewrite (network_Discover_error b e E) in H. discriminate.
  - intros b pre i post Hifs Hi Hpre. split; [| split].
    + destruct (network_Discover_run b _ Hifs) as [evs [Hrun Hcalls]].
      exists evs. rewrite Hrun, Hcalls.
      rewrite (scanned_unconfigured b pre (i :: post) Hpre).
      cbn [networkSpec.scanned]. rewrite Hi, !flat_map_app.
      cbn [flat_map]. unfold networkSpec.tokens, networkSpec.reads.
      rewrite Hi, (configured_supported b i Hi).
      unfold networkSpec.configured, networkSpec.supported in Hi.
      apply andb_prop in Hi as [Hi _]. apply andb_prop in Hi as [-> _].
      now rewrite !app_nil_r.
    + clear Hifs. induction pre as [| j pre IH]; trivial.
      simpl in Hpre. apply andb_prop in Hpre as [Hj Hpre].
      apply negb_true_iff in Hj.
      cbn [flat_map]. rewrite count_app, count_configured_tokens, Hj.
      now rewrite IH.
    + now apply network_loop_stops.
Qed.

Lemma network_Discover_stops_at_first_configured_witness :
  (exists evs,
      run networkSource.Discover Examples.node =
      (Done (Some (flat_map (networkSpec.tokens Examples.node)
                     [Examples.lo; Examples.ethA; Examples.ethX; Examples.ethB]
                   ++ ["sriov"; "sriov-configured"]), None),
       Interfaces :: evs) /\
      calls evs =
      flat_map (networkSpec.reads Examples.node)
        [Examples.lo; Examples.ethA; Examples.ethX; Examples.ethB]
      ++ [ReadFile (networkSource.totalVfsPath "ethC");
          ReadFile (networkSource.numVfsPath "ethC")]) /\
  (count "sriov-configured" ["sriov"; "sriov"; "sriov-configured"] <= 1)%nat.
Proof.
  split.
  - apply (proj2 network_Discover_stops_at_first_configured Examples.node
             [Examples.lo; Examples.ethA; Examples.ethX; Examples.ethB]
             Examples.ethC [Examples.ethD]); reflexivity.
  - apply (proj1 network_Discover_stops_at_first_configured Examples.node
             _ None (snd (run networkSource.Discover Examples.node))).
    reflexivity.
Defined.

(** An entry without a value leaves the running total as it is. *)
Lemma runningTotal_skip (b : backend) (pre post : list string) (name : string) :
  netidSpec.numVfs b name = None ->
  forall total,
    netidSpec.runningTotal b (pre ++ name :: post) total =
    netidSpec.runningTotal b (pre ++ post) total.
Proof.
  intros H total. unfold netidSpec.runningTotal.
  rewrite !fold_left_app. simpl. now rewrite H.
Qed.

(** An interface with a failing attribute is never the configured one, and
    contributes "sriov" at most. *)
Lemma fails_tokens (b : backend) (i : Go.Interface) :
  networkSpec.fails b i ->
  networkSpec.configured b i = false /\
  (networkSpec.tokens b i = [] \/ networkSpec.tokens b i = ["sriov"]).
Proof.
  unfold networkSpec.fails, networkSpec.tokens, networkSpec.configured,
    networkSpec.supported.
  intros [Hup [Ht | [Hs Hn]]].
  - rewrite Ht, Hup. simpl. auto.
  - rewrite Hn. rewrite andb_false_r.
    destruct (networkSource.upNotLoopback i && positive (networkSpec.totalVfs b i));
      auto.
Qed.

Lemma netidClaim_total_skip (b : backend) (pre post : list string)
  (name : string) :
  netidClaim.value b name = None ->
  netidSpec.grandTotal b (pre ++ name :: post) =
  netidClaim.total b (pre ++ post).
Proof.
  intros H. rewrite netidClaim_total. now apply runningTotal_skip.
Qed.

(** C6, as stated, fails in the direct mode.  On the machine of the
    examples the total of X is not a number and X is passed over, but D,
    which comes after the configured C, is never examined; and an interface
    whose total is 4 and whose sriov_numvfs file is missing is not skipped
    altogether, since its "sriov" is reported. *)
Lemma network_Discover_failure_not_only_skipped :
  ~ failureSkipsOnlyThat Examples.node /\
  (networkSpec.fails Examples.halfNode Examples.ethH /\
   run networkSource.Discover Examples.halfNode =
   (Done (Some ["sriov"], None),
    [Interfaces;
     ReadFile "/sys/class/net/ethH/device/sriov_totalvfs";
     Printf stdoutLogger
       "SR-IOV capability is detected on the network interface: %s"
       [FString "ethH"];
     Printf stdoutLogger
       "%d maximum supported number of virtual functions on network interface: %s"
       [FInt 4; FString "ethH"];
     ReadFile "/sys/class/net/ethH/device/sriov_numvfs";
     Printf stderrLogger
       "SR-IOV not configured for network interface: %s: %s"
       [FString "ethH"; FError Examples.noent]])).
Proof.
  split.
  - intros H.
    specialize (H [Examples.lo; Examples.ethA] Examples.ethX
                  [Examples.ethB; Examples.ethC; Examples.ethD] Examples.ethD
                  (Some ["sriov"; "sriov"; "sriov-configured"], None)
                  (snd (run networkSource.Discover Examples.node))).
    assert (Hin : In (ReadFile (networkSource.totalVfsPath "ethD"))
                     (snd (run networkSource.Discover Examples.node))).
    { apply H.
      - reflexivity.
      - reflexivity.
      - split; [reflexivity | left; reflexivity].
      - vm_compute. tauto.
      - simpl. tauto.
      - reflexivity. }
    vm_compute in Hin. intuition discriminate.
  - split; [| reflexivity].
    split; [reflexivity | right; split; reflexivity].
Qed.

(** C6, amended: in both modes Discover returns an error exactly when the
    enumeration of the interfaces fails, and then returns no list and reads
    nothing else.  An attribute of one interface that is absent, unreadable,
    empty or not a number never makes Discover fail and never ends the scan.
    In the mounted mode the entry adds no value and every entry of the
    listing is read.  In the direct mode the interface adds nothing when its
    total fails, and its "sriov" alone when the total is positive and the
    configured number fails; the scan goes on with the interfaces after it
    as it would from there without it, which is up to and including the
    first configured one, where the scan stops, and not necessarily through
    all of them. *)
Theorem network_Discover_error_iff_enumeration_fails (b : backend) :
  ((exists features e,
       fst (run netidSource.Discover b) = Done (features, Some e)) <->
   (exists err, dirEntries b "/hostsys/class/net" = inr err)) /\
  (forall err,
      dirEntries b "/hostsys/class/net" = inr err ->
      run netidSource.Discover b =
      (Done (None, Some (Errorf "can't obtain the network interfaces: %s" err)),
       [ReadDir "/hostsys/class/net"])) /\
  (forall pre name post,
      dirEntries b "/hostsys/class/net" = inl (pre ++ name :: post) ->
      netidClaim.value b name = None ->
      run netidSource.Discover b =
      (Done (Some (if netidClaim.total b (pre ++ post) >? 0
                   then ["SRIOV"] else []), None),
       ReadDir "/hostsys/class/net"
       :: netidClaim.reads (pre ++ name :: post))) /\
  ((exists features e,
       fst (run networkSource.Discover b) = Done (features, Some e)) <->
   (exists err, netInterfaces b = inr err)) /\
  (forall err,
      netInterfaces b = inr err ->
      run networkSource.Discover b =
      (Done (None,
             Some (Errorf "can't obtain the network interfaces details: %s"
                     err)),
       [Interfaces])) /\
  (forall pre i post,
      netInterfaces b = inl (pre ++ i :: post) ->
      networkSpec.fails b i ->
      forallb (fun j => negb (networkSpec.configured b j)) pre = true ->
      exists evs,
        run networkSource.Discover b =
        (Done (Some (flat_map (networkSpec.tokens b) pre
                     ++ networkSpec.tokens b i
                     ++ flat_map (networkSpec.tokens b)
                          (networkSpec.scanned b post)), None),
         Interfaces :: evs) /\
        calls evs =
        flat_map (networkSpec.reads b) pre
        ++ networkSpec.reads b i
        ++ flat_map (networkSpec.reads b) (networkSpec.scanned b post) /\
        (networkSpec.tokens b i = [] \/ networkSpec.tokens b i = ["sriov"]) /\
        (networkSpec.totalVfs b i = None -> networkSpec.tokens b i = []) /\
        (forall j,
            In j (networkSpec.scanned b post) ->
            networkSource.upNotLoopback j = true ->
            In (ReadFile (networkSource.totalVfsPath (Go.Name j))) evs)).
Proof.
  split; [| split; [| split; [| split; [| split]]]].
  - destruct (dirEntries b netidSpec.dir) as [names | err] eqn:E.
    + rewrite (netid_Discover_run b names E). simpl. split.
      * intros [features [e H]]. discriminate.
      * intros [err H]. unfold netidSpec.dir in E. congruence.
    + rewrite (netid_Discover_error b err E). simpl. split; eauto.
  - apply netid_Discover_error.
  - intros pre name post Hdir Hname.
    rewrite (netid_Discover_run b _ Hdir).
    now rewrite (netidClaim_total_skip b pre post name Hname).
  - destruct (netInterfaces b) as [ifs | err] eqn:E.
    + destruct (network_Discover_run b ifs E) as [evs [Hrun _]].
      rewrite Hrun. simpl. split.
      * intros [features [e H]]. discriminate.
      * intros [err H]. discriminate.
    + rewrite (network_Discover_error b err E). simpl. split; eauto.
  - apply network_Discover_error.
  - intros pre i post Hifs Hfails Hpre.
    destruct (fails_tokens b i Hfails) as [Hconf Htok].
    destruct (network_Discover_run b _ Hifs) as [evs [Hrun Hcalls]].
    exists evs. rewrite Hrun, Hcalls.
    rewrite (scanned_unconfigured b pre (i :: post) Hpre).
    cbn [networkSpec.scanned]. rewrite Hconf, !flat_map_app.
    cbn [flat_map]. repeat split; trivial.
    + intros Ht. unfold networkSpec.tokens, networkSpec.configured,
        networkSpec.supported. rewrite Ht. simpl.
      now rewrite andb_false_r.
    + intros j Hj Hup.
      assert (Hin : In (ReadFile (networkSource.totalVfsPath (Go.Name j)))
                       (calls evs)).
      { rewrite Hcalls, (scanned_unconfigured b pre (i :: post) Hpre).
        cbn [networkSpec.scanned]. rewrite Hconf, !flat_map_app.
        cbn [flat_map]. apply in_or_app. right. apply in_or_app. right.
        apply in_flat_map. exists j. split; trivial.
        unfold networkSpec.reads. rewrite Hup. now left. }
      unfold calls in Hin. now apply filter_In in Hin.
Qed.

Lemma network_Discover_error_iff_enumeration_fails_witness :
  run netidSource.Discover Examples.node =
  (Done (None,
         Some (Errorf "can't obtain the network interfaces: %s" Examples.noent)),
   [ReadDir "/hostsys/class/net"]) /\
  run netidSource.Discover Examples.pod =
  (Done (Some ["SRIOV"], None),
   [ReadDir "/hostsys/class/net";
    ReadFile "/hostsys/class/net/eth0/device/sriov_numvfs";
    ReadFile "/hostsys/class/net/eth1/device/sriov_numvfs";
    ReadFile "/hostsys/class/net/eth2/device/sriov_numvfs";
    ReadFile "/hostsys/class/net/eth3/device/sriov_numvfs";
    ReadFile "/hostsys/class/net/lo/device/sriov_numvfs"]) /\
  run networkSource.Discover Examples.pod =
  (Done (None,
         Some (Errorf "can't obtain the network interfaces details: %s"
                 Examples.noent)),
   [Interfaces]) /\
  exists evs,
    run networkSource.Discover Examples.node =
    (Done (Some ["sriov"; "sriov"; "sriov-configured"], None),
     Interfaces :: evs) /\
    calls evs =
    [ReadFile "/sys/class/net/ethA/device/sriov_totalvfs";
     ReadFile "/sys/class/net/ethX/device/sriov_totalvfs";
     ReadFile "/sys/class/net/ethB/device/sriov_totalvfs";
     ReadFile "/sys/class/net/ethB/device/sriov_numvfs";
     ReadFile "/sys/class/net/ethC/device/sriov_totalvfs";
     ReadFile "/sys/class/net/ethC/device/sriov_numvfs"] /\
    networkSpec.tokens Examples.node Examples.ethX = [] /\
    In (ReadFile "/sys/class/net/ethB/device/sriov_totalvfs") evs /\
    In (ReadFile "/sys/class/net/ethC/device/sriov_totalvfs") evs.
Proof.
  pose proof (network_Discover_error_iff_enumeration_fails Examples.node)
    as [_ [Hnode [_ [_ [_ Hskip]]]]].
  pose proof (network_Discover_error_iff_enumeration_fails Examples.pod)
    as [_ [_ [Hpod [_ [Herr _]]]]].
  split; [| split; [| split]].
  - apply Hnode. reflexivity.
  - apply (Hpod ["eth0"; "eth1"] "eth2" ["eth3"; "lo"]); reflexivity.
  - apply Herr. reflexivity.
  - destruct (Hskip [Examples.lo; Examples.ethA] Examples.ethX
                [Examples.ethB; Examples.ethC; Examples.ethD])
      as [evs [Hrun [Hcalls [_ [Htok Hnext]]]]].
    + reflexivity.
    + split; [reflexivity | left; reflexivity].
    + reflexivity.
    + exists evs. split; [exact Hrun |]. split; [exact Hcalls |].
      split; [apply Htok; reflexivity |]. split.
      * apply (Hnext Examples.ethB); [simpl; tauto | reflexivity].
      * apply (Hnext Examples.ethC); [simpl; tauto | reflexivity].
Defined.

(** ** All sources *)

Lemma oblivious_sources (s : FeatureSource) :
  In s sources -> oblivious (fsDiscover s).
Proof.
  intros [<- | [<- | [<- | [<- | [<- | []]]]]]; simpl.
  - apply oblivious_cpuid.
  - apply oblivious_rdt.
  - apply oblivious_pstate.
  - apply oblivious_netid.
  - apply oblivious_network.
Qed.

(** C7: for every source, a second call of Discover made right after the
    first, on the world the first call left, gives the same list and the
    same error (or ends the same way): the first call leaves the backend as
    it was, and Discover depends on the backend only, not on what was done
    or logged before. *)
Theorem Discover_twice (s : FeatureSource) (w : world) :
  In s sources ->
  fst (fsDiscover s (snd (fsDiscover s w))) = fst (fsDiscover s w) /\
  env (snd (fsDiscover s w)) = env w /\
  (forall w', env w' = env w -> fst (fsDiscover s w') = fst (fsDiscover s w)).
Proof.
  intros Hs. pose proof (oblivious_sources s Hs) as H.
  assert (Henv : env (snd (fsDiscover s w)) = env w) by now rewrite (H w).
  assert (Hsame : forall w', env w' = env w ->
                             fst (fsDiscover s w') = fst (fsDiscover s w)).
  { intros w' Hw'. rewrite (H w'), (H w). simpl. now rewrite Hw'. }
  repeat split; trivial. now apply Hsame.
Qed.

Lemma Discover_twice_witness :
  fst (networkSource.Discover
         (snd (networkSource.Discover {| env := Examples.node; log := [] |}))) =
  fst (networkSource.Discover {| env := Examples.node; log := [] |}).
Proof.
  apply (proj1 (Discover_twice network {| env := Examples.node; log := [] |}
                  (or_intror (or_intror (or_intror (or_intror
                     (or_introl eq_refl))))))).
Defined.

(** ** More about rdtSource *)

(** Splits the ways the three helpers can end and runs Discover in each. *)
Ltac rdt_cases b :=
  unfold rdtSpec.terminates, rdtSpec.helper, rdtSource.Discover in *;
  destruct (process b "bash" ["-c"; Go.Join RDTBin "mon-discovery"])
    as [?c | ?msg |] eqn:Hmon;
  destruct (process b "bash" ["-c"; Go.Join RDTBin "l3-alloc-discovery"])
    as [?c | ?msg |] eqn:Hl3;
  destruct (process b "bash" ["-c"; Go.Join RDTBin "l2-alloc-discovery"])
    as [?c | ?msg |] eqn:Hl2;
  repeat (unfold_monad;
          first [ rewrite Hmon | rewrite Hl3 | rewrite Hl2
                | match goal with
                  | |- context [if ?c =? 0 then None else _] =>
                    destruct (c =? 0)
                  end ]).

Lemma rdt_Discover_no_error (b : backend) (r : result) :
  fst (run rdtSource.Discover b) = Done r ->
  exists features, r = (Some features, None).
Proof.
  rdt_cases b; simpl; intros H; try discriminate;
    injection H as <-; eexists; reflexivity.
Qed.

(** X2: when the three helpers end, Discover writes, right after a helper
    that did not exit with status zero, one line on the standard error
    logger that names the capability of that helper and carries its error,
    and writes nothing after a helper that succeeded; the tokens are those
    of the helpers without a line. *)
Theorem rdt_Discover_logs_each_absence (b : backend) (mon l3 l2 : exit) :
  process b "bash" (rdtSpec.helper "mon-discovery") = mon ->
  process b "bash" (rdtSpec.helper "l3-alloc-discovery") = l3 ->
  process b "bash" (rdtSpec.helper "l2-alloc-discovery") = l2 ->
  rdtSpec.terminates mon -> rdtSpec.terminates l3 -> rdtSpec.terminates l2 ->
  run rdtSource.Discover b =
  (Done (Some (rdtSpec.tokens mon l3 l2), None),
   [Run "bash" (rdtSpec.helper "mon-discovery")]
   ++ rdtLog.complaint "support for RDT monitoring was not detected: %s" mon
   ++ [Run "bash" (rdtSpec.helper "l3-alloc-discovery")]
   ++ rdtLog.complaint "support for RDT L3 allocation was not detected: %s" l3
   ++ [Run "bash" (rdtSpec.helper "l2-alloc-discovery")]
   ++ rdtLog.complaint "support for RDT L2 allocation was not detected: %s" l2)
  /\
  (forall format e,
      rdtSpec.terminates e ->
      (rdtLog.complaint format e = [] <-> rdtSpec.detected e = true) /\
      (rdtSpec.detected e = false ->
       exists err,
         rdtLog.complaint format e = [Printf stderrLogger format [FError err]])).
Proof.
  intros Hmon Hl3 Hl2 Tmon Tl3 Tl2. split.
  - unfold rdtSpec.helper, rdtSpec.terminates, rdtSource.Discover in *.
    destruct mon as [c1 | msg1 |]; [| | contradiction];
      destruct l3 as [c2 | msg2 |]; try contradiction;
      destruct l2 as [c3 | msg3 |]; try contradiction;
      unfold rdtSpec.tokens, rdtLog.complaint, rdtLog.failure; simpl;
      repeat (unfold_monad;
              first [ rewrite Hmon | rewrite Hl3 | rewrite Hl2
                    | match goal with
                      | |- context [if ?c =? 0 then None else _] =>
                        destruct (c =? 0)
                      end ]);
      reflexivity.
  - intros format e Te. unfold rdtLog.complaint, rdtLog.failure.
    destruct e as [code | msg |]; simpl.
    + destruct (code =? 0); split;
        try (split; intros; trivial; discriminate);
        intros; try discriminate; eauto.
    + split; [split; intros; discriminate | eauto].
    + now contradiction Te.
Qed.

Lemma rdt_Discover_logs_each_absence_witness :
  run rdtSource.Discover Examples.node =
  (Done (Some ["RDTMON"; "RDTL2CA"], None),
   [Run "bash" (rdtSpec.helper "mon-discovery");
    Run "bash" (rdtSpec.helper "l3-alloc-discovery");
    Printf stderrLogger "support for RDT L3 allocation was not detected: %s"
      [FError (ExitError 1)];
    Run "bash" (rdtSpec.helper "l2-alloc-discovery")]).
Proof.
  assert (T : forall code, rdtSpec.terminates (Exited code))
    by (intros code; discriminate).
  apply (proj1 (rdt_Discover_logs_each_absence Examples.node
                  (Exited 0) (Exited 1) (Exited 0)
                  eq_refl eq_refl eq_refl (T 0) (T 1) (T 0))).
Defined.

(** X3: the helpers are started one after the other, and a helper that
    never exits keeps the later ones from being started: Discover is stuck
    after one, two or three helpers have been started, according to the
    first helper that never exits. *)
Theorem rdt_Discover_stuck_helper_holds_the_rest (b : backend) :
  (process b "bash" (rdtSpec.helper "mon-discovery") = NeverExits ->
   run rdtSource.Discover b =
   (Blocked, [Run "bash" (rdtSpec.helper "mon-discovery")])) /\
  (rdtSpec.terminates (process b "bash" (rdtSpec.helper "mon-discovery")) ->
   process b "bash" (rdtSpec.helper "l3-alloc-discovery") = NeverExits ->
   fst (run rdtSource.Discover b) = Blocked /\
   calls (snd (run rdtSource.Discover b)) =
   [Run "bash" (rdtSpec.helper "mon-discovery");
    Run "bash" (rdtSpec.helper "l3-alloc-discovery")]) /\
  (rdtSpec.terminates (process b "bash" (rdtSpec.helper "mon-discovery")) ->
   rdtSpec.terminates (process b "bash" (rdtSpec.helper "l3-alloc-discovery")) ->
   process b "bash" (rdtSpec.helper "l2-alloc-discovery") = NeverExits ->
   fst (run rdtSource.Discover b) = Blocked /\
   calls (snd (run rdtSource.Discover b)) = rdtSpec.runs).
Proof.
  split; [| split].
  - intros H. rdt_cases b; try discriminate; reflexivity.
  - intros T H. rdt_cases b; try discriminate; try contradiction;
      split; reflexivity.
  - intros T T' H. rdt_cases b; try discriminate; try contradiction;
      split; reflexivity.
Qed.

Lemma rdt_Discover_stuck_helper_holds_the_rest_witness :
  run rdtSource.Discover Examples.stuck =
  (Blocked, [Run "bash" (rdtSpec.helper "mon-discovery")]) /\
  (fst (run rdtSource.Discover Examples.stuckL3) = Blocked /\
   calls (snd (run rdtSource.Discover Examples.stuckL3)) =
   [Run "bash" (rdtSpec.helper "mon-discovery");
    Run "bash" (rdtSpec.helper "l3-alloc-discovery")]).
Proof.
  split.
  - apply (proj1 (rdt_Discover_stuck_helper_holds_the_rest Examples.stuck)).
    reflexivity.
  - apply (proj1 (proj2 (rdt_Discover_stuck_helper_holds_the_rest
                           Examples.stuckL3))).
    + discriminate.
    + reflexivity.
Defined.

(** ** More about all sources *)

Lemma pstate_Discover_run (b : backend) :
  run pstateSource.Discover b =
  (match fileContent b pstateSource.no_turbo with
   | inl [] => Panicked (IndexOutOfRange 0 0)
   | inl (b0 :: _) =>
     Done (Some (if Byte.eqb b0 x30 then ["turbo"] else []), None)
   | inr err =>
     Done (None,
           Some (Errorf "can't detect whether turbo boost is enabled: %s" err))
   end,
   [ReadFile pstateSource.no_turbo]).
Proof.
  unfold pstateSource.Discover. unfold_monad.
  destruct (fileContent b pstateSource.no_turbo) as [[| b0 rest] | err];
    reflexivity.
Qed.

Lemma netid_Discover_cases (b : backend) :
  (exists names,
      dirEntries b netidSpec.dir = inl names /\
      run netidSource.Discover b =
      (Done (Some (if netidSpec.grandTotal b names >? 0 then ["SRIOV"] else []),
             None),
       ReadDir netidSpec.dir :: netidSpec.reads names)) \/
  (exists err,
      dirEntries b netidSpec.dir = inr err /\
      run netidSource.Discover b =
      (Done (None, Some (Errorf "can't obtain the network interfaces: %s" err)),
       [ReadDir netidSpec.dir])).
Proof.
  destruct (dirEntries b netidSpec.dir) as [names | err] eqn:E.
  - left. exists names. split; trivial. now apply netid_Discover_run.
  - right. exists err. split; trivial. now apply netid_Discover_error.
Qed.

(** X1: whenever a source returns, it returns either a list and no error or
    an error and no list, never both and never neither; cpuid and rdt never
    return an error. *)
Theorem Discover_list_or_error (s : FeatureSource) (b : backend) (r : result) :
  In s sources ->
  fst (run (fsDiscover s) b) = Done r ->
  ((exists features, r = (Some features, None)) \/
   (exists e, r = (None, Some e))) /\
  (s = cpuid \/ s = rdt -> exists features, r = (Some features, None)).
Proof.
  assert (Hcpuid : fst (run cpuidSource.Discover b) = Done r ->
                   exists features, r = (Some features, None)).
  { intros H. injection H as <-. eexists. reflexivity. }
  intros [<- | [<- | [<- | [<- | [<- | []]]]]] H; simpl in H.
  - split; [left |]; auto.
  - split; [left |]; intros; now apply (rdt_Discover_no_error b).
  - split; [| intros [E | E]; discriminate E].
    rewrite pstate_Discover_run in H. simpl in H.
    destruct (fileContent b pstateSource.no_turbo) as [[| b0 rest] | err];
      try discriminate; injection H as <-; eauto.
  - split; [| intros [E | E]; discriminate E].
    destruct (netid_Discover_cases b) as [[names [_ Hrun]] | [err [_ Hrun]]];
      rewrite Hrun in H; injection H as <-; eauto.
  - split; [| intros [E | E]; discriminate E].
    destruct (netInterfaces b) as [ifs | err] eqn:E.
    + destruct (network_Discover_run b ifs E) as [evs [Hrun _]].
      rewrite Hrun in H. injection H as <-. eauto.
    + rewrite (network_Discover_error b err E) in H. injection H as <-. eauto.
Qed.

Lemma Discover_list_or_error_witness :
  let r : result :=
    (None, Some (Errorf "can't detect whether turbo boost is enabled: %s"
                   Examples.noent)) in
  (exists features, r = (Some features, None)) \/
  (exists e, r = (None, Some e)).
Proof.
  apply (proj1 (Discover_list_or_error pstate Examples.pod _
                  (or_intror (or_intror (or_introl eq_refl))) eq_refl)).
Defined.

Ltac distinct_tokens := repeat constructor; simpl; intuition discriminate.

(** X4: rdt, pstate and the mounted network source never report a feature
    twice; rdt reports at most three features, the other two at most one. *)
Theorem Discover_without_repeats (b : backend) (features : list string)
  (err : option error) :
  (fst (run rdtSource.Discover b) = Done (Some features, err) ->
   NoDup features /\ (length features <= 3)%nat) /\
  (fst (run pstateSource.Discover b) = Done (Some features, err) ->
   NoDup features /\ (length features <= 1)%nat) /\
  (fst (run netidSource.Discover b) = Done (Some features, err) ->
   NoDup features /\ (length features <= 1)%nat).
Proof.
  split; [| split].
  - rdt_cases b; simpl; intros H; try discriminate;
      injection H as <- _; (split; [distinct_tokens | simpl; lia]).
  - rewrite pstate_Discover_run. simpl.
    destruct (fileContent b pstateSource.no_turbo) as [[| b0 rest] | e];
      intros H; try discriminate. injection H as <- _.
    destruct (Byte.eqb b0 x30); (split; [distinct_tokens | simpl; lia]).
  - destruct (netid_Discover_cases b) as [[names [_ Hrun]] | [e [_ Hrun]]];
      rewrite Hrun; simpl; intros H; try discriminate. injection H as <- _.
    destruct (netidSpec.grandTotal b names >? 0);
      (split; [distinct_tokens | simpl; lia]).
Qed.

Lemma Discover_without_repeats_witness :
  NoDup ["RDTMON"; "RDTL2CA"] /\ (length ["RDTMON"; "RDTL2CA"] <= 3)%nat.
Proof.
  apply (proj1 (Discover_without_repeats Examples.node
                  ["RDTMON"; "RDTL2CA"] None)).
  reflexivity.
Defined.

Lemma lines_reads (names : list string) : lines (netidSpec.reads names) = [].
Proof. induction names as [| name rest IH]; simpl; trivial. Qed.

(** X5: what the sources other than rdt and the direct network source touch:
    cpuid makes no call and writes no line; pstate reads its one flag file
    and nothing else, whatever the outcome; the mounted network source
    lists /hostsys/class/net, reads only sriov_numvfs files of entries of
    that directory, and writes no line. *)
Theorem Discover_touches_only_its_files (b : backend) :
  snd (run cpuidSource.Discover b) = [] /\
  snd (run pstateSource.Discover b) = [ReadFile pstateSource.no_turbo] /\
  lines (snd (run netidSource.Discover b)) = [] /\
  (forall e,
      In e (snd (run netidSource.Discover b)) ->
      e = ReadDir netidSpec.dir \/
      exists names name,
        dirEntries b netidSpec.dir = inl names /\ In name names /\
        e = ReadFile (netidSource.numVfsPath name)).
Proof.
  split; [reflexivity |]. split; [now rewrite pstate_Discover_run |].
  destruct (netid_Discover_cases b) as [[names [E Hrun]] | [err [E Hrun]]];
    rewrite Hrun; simpl; split; trivial.
  - change (lines (netidSpec.reads names) = []). apply lines_reads.
  - intros e [<- | He]; [now left | right].
    unfold netidSpec.reads in He. apply in_map_iff in He as [name [<- Hin]].
    now exists names, name.
  - intros e [<- | []]. now left.
Qed.

Lemma Discover_touches_only_its_files_witness :
  ReadFile (netidSource.numVfsPath "eth1") = ReadDir netidSpec.dir \/
  exists names name,
    dirEntries Examples.pod netidSpec.dir = inl names /\ In name names /\
    ReadFile (netidSource.numVfsPath "eth1")
    = ReadFile (netidSource.numVfsPath name).
Proof.
  apply (proj2 (proj2 (proj2 (Discover_touches_only_its_files Examples.pod)))).
  vm_compute. tauto.
Defined.

(** ** More about the direct network source *)

Lemma scanned_incl (b : backend) (ifs : list Go.Interface) (i : Go.Interface) :
  In i (networkSpec.scanned b ifs) -> In i ifs.
Proof.
  induction ifs as [| j rest IH]; simpl; trivial.
  destruct (networkSpec.configured b j); simpl; intuition.
Qed.

(** An interface of the list is reached, or the scan stopped before it at a
    configured interface. *)
Lemma scanned_reach (b : backend) (ifs : list Go.Interface) (i : Go.Interface) :
  In i ifs ->
  In i (networkSpec.scanned b ifs) \/
  exists j, In j (networkSpec.scanned b ifs) /\ networkSpec.configured b j = true.
Proof.
  induction ifs as [| j rest IH]; simpl; [tauto |].
  intros Hin. destruct (networkSpec.configured b j) eqn:E.
  - right. exists j. simpl. auto.
  - destruct Hin as [-> | Hin]; [left; simpl; auto |].
    destruct (IH Hin) as [H | [k [Hk Hc]]]; [left | right]; simpl; eauto.
Qed.

Lemma in_tokens (b : backend) (i : Go.Interface) (token : string) :
  In token (networkSpec.tokens b i) <->
  (token = "sriov" /\ networkSpec.supported b i = true) \/
  (token = "sriov-configured" /\ networkSpec.configured b i = true).
Proof.
  unfold networkSpec.tokens.
  destruct (networkSpec.configured b i) eqn:E.
  - rewrite (configured_supported b i E). simpl.
    intuition (subst; auto; discriminate).
  - destruct (networkSpec.supported b i); simpl;
      intuition (subst; auto; discriminate).
Qed.

(** X6: although the scan stops at the first configured interface, the set
    of tokens of the direct mode does not depend on the order of the
    interfaces: "sriov" is reported exactly when some interface of the list
    is up, not the loopback, and has a positive total, "sriov-configured"
    exactly when some such interface has a positive configured number, and
    no other token is ever reported. *)
Theorem network_Discover_token_set (b : backend) (ifs : list Go.Interface) :
  netInterfaces b = inl ifs ->
  exists features,
    fst (run networkSource.Discover b) = Done (Some features, None) /\
    (In "sriov" features <->
     exists i, In i ifs /\ networkSpec.supported b i = true) /\
    (In "sriov-configured" features <->
     exists i, In i ifs /\ networkSpec.configured b i = true) /\
    (forall token,
        In token features -> token = "sriov" \/ token = "sriov-configured").
Proof.
  intros Hifs. destruct (network_Discover_run b ifs Hifs) as [evs [Hrun _]].
  rewrite Hrun. eexists. split; [reflexivity |].
  split; [| split].
  - rewrite in_flat_map. split.
    + intros [j [Hj Ht]]. apply in_tokens in Ht as [[_ Hs] | [E _]];
        [| discriminate E].
      exists j. split; trivial. now apply (scanned_incl b).
    + intros [i [Hi Hs]].
      destruct (scanned_reach b ifs i Hi) as [H | [j [Hj Hc]]].
      * exists i. split; trivial. apply in_tokens. auto.
      * exists j. split; trivial. apply in_tokens. left.
        split; trivial. now apply configured_supported.
  - rewrite in_flat_map. split.
    + intros [j [Hj Ht]]. apply in_tokens in Ht as [[E _] | [_ Hc]];
        [discriminate E |].
      exists j. split; trivial. now apply (scanned_incl b).
    + intros [i [Hi Hc]].
      destruct (scanned_reach b ifs i Hi) as [H | [j [Hj Hc']]].
      * exists i. split; trivial. apply in_tokens. auto.
      * exists j. split; trivial. apply in_tokens. auto.
  - intros token Ht. apply in_flat_map in Ht as [j [_ Ht]].
    apply in_tokens in Ht. tauto.
Qed.

Lemma network_Discover_token_set_witness :
  exists features,
    fst (run networkSource.Discover Examples.node) = Done (Some features, None) /\
    (In "sriov" features <->
     exists i,
       In i [Examples.lo; Examples.ethA; Examples.ethX; Examples.ethB;
             Examples.ethC; Examples.ethD] /\
       networkSpec.supported Examples.node i = true) /\
    (In "sriov-configured" features <->
     exists i,
       In i [Examples.lo; Examples.ethA; Examples.ethX; Examples.ethB;
             Examples.ethC; Examples.ethD] /\
       networkSpec.configured Examples.node i = true) /\
    (forall token,
        In token features -> token = "sriov" \/ token = "sriov-configured").
Proof.
  apply (network_Discover_token_set Examples.node). reflexivity.
Defined.

Lemma scanned_configured (b : backend) (ifs : list Go.Interface) :
  existsb (networkSpec.configured b) (networkSpec.scanned b ifs) =
  existsb (networkSpec.configured b) ifs.
Proof.
  induction ifs as [| i rest IH]; simpl; trivial.
  destruct (networkSpec.configured b i) eqn:E; simpl; rewrite E; simpl; trivial.
Qed.

Lemma tokens_shape (b : backend) (l : list Go.Interface) :
  flat_map (networkSpec.tokens b) (networkSpec.scanned b l) =
  repeat "sriov"
    (length (filter (networkSpec.supported b) (networkSpec.scanned b l)))
  ++ (if existsb (networkSpec.configured b) l
      then ["sriov-configured"] else []).
Proof.
  induction l as [| i rest IH]; trivial.
  cbn [networkSpec.scanned existsb].
  destruct (networkSpec.configured b i) eqn:E; cbn [flat_map filter orb].
  - unfold networkSpec.tokens. rewrite E, (configured_supported b i E).
    reflexivity.
  - rewrite IH. unfold networkSpec.tokens. rewrite E.
    destruct (networkSpec.supported b i); reflexivity.
Qed.

Lemma supported_up (b : backend) (l : list Go.Interface) :
  (length (filter (networkSpec.supported b) l)
   <= length (filter networkSource.upNotLoopback l))%nat.
Proof.
  induction l as [| i rest IH]; simpl; trivial.
  unfold networkSpec.supported at 1.
  destruct (networkSource.upNotLoopback i); simpl; [| trivial].
  destruct (positive (networkSpec.totalVfs b i)); simpl; lia.
Qed.

Lemma filter_scanned_length (b : backend) (f : Go.Interface -> bool)
  (l : list Go.Interface) :
  (length (filter f (networkSpec.scanned b l)) <= length (filter f l))%nat.
Proof.
  induction l as [| i rest IH]; simpl; trivial.
  destruct (networkSpec.configured b i); simpl; destruct (f i); simpl; lia.
Qed.

(** X7: the list of the direct mode is a run of "sriov", one for every
    supported interface that the scan reaches, followed by a single
    "sriov-configured" when some interface is configured, in which case at
    least one "sriov" precedes it; the run is no longer than the number of
    interfaces that are up and not the loopback. *)
Theorem network_Discover_shape (b : backend) (ifs : list Go.Interface) :
  netInterfaces b = inl ifs ->
  exists k,
    fst (run networkSource.Discover b) =
    Done (Some (repeat "sriov" k
                ++ (if existsb (networkSpec.configured b) ifs
                    then ["sriov-configured"] else [])), None) /\
    k = length (filter (networkSpec.supported b) (networkSpec.scanned b ifs)) /\
    (k <= length (filter networkSource.upNotLoopback ifs))%nat /\
    (existsb (networkSpec.configured b) ifs = true -> (1 <= k)%nat).
Proof.
  intros Hifs. destruct (network_Discover_run b ifs Hifs) as [evs [Hrun _]].
  rewrite Hrun, tokens_shape. eexists. split; [reflexivity |].
  split; [reflexivity |]. split.
  - etransitivity; [apply supported_up | apply filter_scanned_length].
  - rewrite <- scanned_configured. intros H.
    apply existsb_exists in H as [j [Hj Hc]].
    assert (Hf : In j (filter (networkSpec.supported b)
                         (networkSpec.scanned b ifs)))
      by (apply filter_In; split; [| apply configured_supported]; trivial).
    destruct (filter (networkSpec.supported b) (networkSpec.scanned b ifs));
      [contradiction | simpl; lia].
Qed.

Lemma network_Discover_shape_witness :
  exists k,
    fst (run networkSource.Discover Examples.node) =
    Done (Some (repeat "sriov" k
                ++ (if existsb (networkSpec.configured Examples.node)
                         [Examples.lo; Examples.ethA; Examples.ethX;
                          Examples.ethB; Examples.ethC; Examples.ethD]
                    then ["sriov-configured"] else [])), None) /\
    k = length (filter (networkSpec.supported Examples.node)
                  (networkSpec.scanned Examples.node
                     [Examples.lo; Examples.ethA; Examples.ethX;
                      Examples.ethB; Examples.ethC; Examples.ethD])) /\
    (k <= length (filter networkSource.upNotLoopback
                    [Examples.lo; Examples.ethA; Examples.ethX;
                     Examples.ethB; Examples.ethC; Examples.ethD]))%nat /\
    (existsb (networkSpec.configured Examples.node)
       [Examples.lo; Examples.ethA; Examples.ethX;
        Examples.ethB; Examples.ethC; Examples.ethD] = true -> (1 <= k)%nat).
Proof.
  apply (network_Discover_shape Examples.node). reflexivity.
Defined.

(** X8: in the direct mode every file that is read is the sriov_totalvfs or
    the sriov_numvfs attribute of an interface of the list that is up and
    not the loopback, and sriov_numvfs is read only for an interface whose
    total is positive; apart from listing the interfaces no other call is
    made. *)
Theorem network_Discover_reads_only_attributes
  (b : backend) (ifs : list Go.Interface) (e : event) :
  netInterfaces b = inl ifs ->
  In e (snd (run networkSource.Discover b)) ->
  isCall e = true ->
  e = Interfaces \/
  exists i,
    In i ifs /\ networkSource.upNotLoopback i = true /\
    (e = ReadFile (networkSource.totalVfsPath (Go.Name i)) \/
     (e = ReadFile (networkSource.numVfsPath (Go.Name i)) /\
      networkSpec.supported b i = true)).
Proof.
  intros Hifs Hin Hcall.
  destruct (network_Discover_run b ifs Hifs) as [evs [Hrun Hcalls]].
  rewrite Hrun in Hin. simpl in Hin. destruct Hin as [<- | Hin]; [now left |].
  right.
  assert (H : In e (calls evs)) by (apply filter_In; now split).
  rewrite Hcalls in H. apply in_flat_map in H as [i [Hi He]].
  exists i. split; [now apply (scanned_incl b) |].
  unfold networkSpec.reads in He.
  destruct (networkSource.upNotLoopback i); [| destruct He].
  split; trivial. destruct He as [<- | He]; [now left | right].
  destruct (networkSpec.supported b i); [| destruct He].
  destruct He as [<- | []]. now split.
Qed.

Lemma network_Discover_reads_only_attributes_witness :
  ReadFile "/sys/class/net/ethC/device/sriov_numvfs" = Interfaces \/
  exists i,
    In i [Examples.lo; Examples.ethA; Examples.ethX; Examples.ethB;
          Examples.ethC; Examples.ethD] /\
    networkSource.upNotLoopback i = true /\
    (ReadFile "/sys/class/net/ethC/device/sriov_numvfs"
     = ReadFile (networkSource.totalVfsPath (Go.Name i)) \/
     (ReadFile "/sys/class/net/ethC/device/sriov_numvfs"
      = ReadFile (networkSource.numVfsPath (Go.Name i)) /\
      networkSpec.supported Examples.node i = true)).
Proof.
  apply (network_Discover_reads_only_attributes Examples.node).
  - reflexivity.
  - vm_compute. tauto.
  - reflexivity.
Defined.

Lemma attribute_Some (b : backend) (filename : string) (n : Z) :
  attribute b filename = Some n ->
  exists bytes,
    fileContent b filename = inl bytes /\
    strconv_Atoi (string_of_list_byte (Go.TrimSpace bytes)) = inl n.
Proof.
  unfold attribute. destruct (fileContent b filename) as [bytes | err];
    [| discriminate].
  destruct (strconv_Atoi (string_of_list_byte (Go.TrimSpace bytes))) eqn:E;
    [| discriminate].
  intros H. injection H as <-. now exists bytes.
Qed.

Lemma gtb_false (z : Z) : z <= 0 -> (z >? 0) = false.
Proof. intros H. rewrite Z.gtb_ltb. now apply Z.ltb_ge. Qed.

Lemma gtb_true (z : Z) : 0 < z -> (z >? 0) = true.
Proof. intros H. rewrite Z.gtb_ltb. now apply Z.ltb_lt. Qed.

(** X9: values that are not positive, in one turn of the loop of the direct
    mode.  A total that is zero or negative counts as no support, silently:
    no token, no further read, no line.  With a positive total, a negative
    configured number leaves "sriov" alone and is passed over without a
    line, whereas zero is reported on the standard error logger as not
    configured. *)
Theorem network_body_values_not_positive
  (b : backend) (i : Go.Interface) (features : list string) :
  networkSource.upNotLoopback i = true ->
  (forall t,
      networkSpec.totalVfs b i = Some t -> t <= 0 ->
      run (networkSource.body i features) b =
      (Done (Continue, features),
       [ReadFile (networkSource.totalVfsPath (Go.Name i))])) /\
  (forall t n,
      networkSpec.totalVfs b i = Some t -> 0 < t ->
      networkSpec.numVfs b i = Some n -> n <= 0 ->
      fst (run (networkSource.body i features) b) =
      Done (Continue, features ++ ["sriov"]) /\
      calls (snd (run (networkSource.body i features) b)) =
      [ReadFile (networkSource.totalVfsPath (Go.Name i));
       ReadFile (networkSource.numVfsPath (Go.Name i))] /\
      lines (snd (run (networkSource.body i features) b)) =
      [Printf stdoutLogger
         "SR-IOV capability is detected on the network interface: %s"
         [FString (Go.Name i)];
       Printf stdoutLogger
         "%d maximum supported number of virtual functions on network interface: %s"
         [FInt t; FString (Go.Name i)]]
      ++ (if n =? 0
          then [Printf stderrLogger
                  "SR-IOV not configured on network interface: %s"
                  [FString (Go.Name i)]]
          else [])).
Proof.
  intros Hup. unfold networkSpec.totalVfs, networkSpec.numVfs. split.
  - intros t Ht Hle.
    apply attribute_Some in Ht as [bytes [Hfile Hatoi]].
    unfold networkSource.body. rewrite Hup. unfold_monad.
    rewrite Hfile. unfold_monad. rewrite Hatoi, (gtb_false t Hle).
    reflexivity.
  - intros t n Ht Hpos Hn Hle.
    apply attribute_Some in Ht as [bytes [Hfile Hatoi]].
    apply attribute_Some in Hn as [bytes' [Hfile' Hatoi']].
    unfold networkSource.body. rewrite Hup. unfold_monad.
    rewrite Hfile. unfold_monad. rewrite Hatoi, (gtb_true t Hpos).
    unfold_monad. rewrite Hfile'. unfold_monad.
    rewrite Hatoi', (gtb_false n Hle). unfold_monad.
    destruct (n =? 0); repeat split; reflexivity.
Qed.

Lemma network_body_values_not_positive_witness :
  run (networkSource.body Examples.ethN []) Examples.oddNode =
  (Done (Continue, []), [ReadFile (networkSource.totalVfsPath "ethN")]) /\
  lines (snd (run (networkSource.body Examples.ethM []) Examples.oddNode)) =
  [Printf stdoutLogger
     "SR-IOV capability is detected on the network interface: %s"
     [FString "ethM"];
   Printf stdoutLogger
     "%d maximum supported number of virtual functions on network interface: %s"
     [FInt 4; FString "ethM"]].
Proof.
  split.
  - apply (proj1 (network_body_values_not_positive Examples.oddNode
                    Examples.ethN [] eq_refl) (-1)); [reflexivity | lia].
  - apply (proj2 (network_body_values_not_positive Examples.oddNode
                    Examples.ethM [] eq_refl) 4 (-2));
      try reflexivity; lia.
Defined.

Lemma scanned_app (b : backend) (l1 l2 : list Go.Interface) :
  networkSpec.scanned b (l1 ++ l2) =
  networkSpec.scanned b l1
  ++ (if existsb (networkSpec.configured b) l1
      then [] else networkSpec.scanned b l2).
Proof.
  induction l1 as [| i rest IH]; trivial.
  cbn [app networkSpec.scanned existsb].
  destruct (networkSpec.configured b i); cbn [orb]; trivial.
  now rewrite IH.
Qed.

(** X10: the loop of the direct mode over two lists of interfaces, one after
    the other, is the loop over the first list, followed by the loop over
    the second list from the features found so far, unless the first list
    holds a configured interface, which ends the scan. *)
Theorem network_loop_app
  (b : backend) (l1 l2 : list Go.Interface) (features : list string) :
  exists found,
    fst (run (forRange networkSource.body l1 features) b) = Done found /\
    fst (run (forRange networkSource.body (l1 ++ l2) features) b) =
    (if existsb (networkSpec.configured b) l1
     then Done found
     else fst (run (forRange networkSource.body l2 found) b)).
Proof.
  destruct (network_loop b l1 features) as [evs1 [H1 _]].
  destruct (network_loop b (l1 ++ l2) features) as [evs [H _]].
  rewrite H1, H. eexists. split; [reflexivity |].
  rewrite scanned_app, flat_map_app. simpl.
  destruct (existsb (networkSpec.configured b) l1).
  - now rewrite app_nil_r.
  - destruct (network_loop b l2
                (features ++ flat_map (networkSpec.tokens b)
                               (networkSpec.scanned b l1)))
      as [evs2 [H2 _]].
    rewrite H2. simpl. now rewrite app_assoc.
Qed.

(** ** More about the mounted network source *)

Lemma grandTotal_wrap (b : backend) (names : list string) :
  netidSpec.grandTotal b names = Go.wrap (netidSpec.exactTotal b names).
Proof.
  unfold netidSpec.grandTotal. change 0 with (Go.wrap 0) at 1.
  now rewrite runningTotal_wrap.
Qed.

Lemma exactTotal_Permutation (b : backend) (names names' : list string) :
  Permutation names names' ->
  netidSpec.exactTotal b names = netidSpec.exactTotal b names'.
Proof.
  unfold netidSpec.exactTotal.
  induction 1 as [| x l l' _ IH | x y l | l l' l'' _ IH1 _ IH2]; simpl.
  - reflexivity.
  - now rewrite IH.
  - destruct (netidSpec.numVfs b x), (netidSpec.numVfs b y); lia.
  - now rewrite IH1.
Qed.

Lemma numVfs_sameFiles (b b' : backend) (name : string) :
  sameFiles b b' -> netidSpec.numVfs b name = netidSpec.numVfs b' name.
Proof. intros H. unfold netidSpec.numVfs, attribute. now rewrite H. Qed.

Lemma exactTotal_sameFiles (b b' : backend) (names : list string) :
  sameFiles b b' ->
  netidSpec.exactTotal b names = netidSpec.exactTotal b' names.
Proof.
  intros H. unfold netidSpec.exactTotal.
  induction names as [| name rest IH]; simpl; trivial.
  now rewrite (numVfs_sameFiles b b' name H), IH.
Qed.

(** X11: the result of the mounted mode does not depend on the order in
    which the directory lists its entries: two backends with the same files
    whose listings of /hostsys/class/net are permutations of each other
    give the same result. *)
Theorem netid_Discover_order_independent
  (b b' : backend) (names names' : list string) :
  sameFiles b b' ->
  dirEntries b netidSpec.dir = inl names ->
  dirEntries b' netidSpec.dir = inl names' ->
  Permutation names names' ->
  fst (run netidSource.Discover b) = fst (run netidSource.Discover b').
Proof.
  intros Hfiles Hdir Hdir' Hperm.
  rewrite (netid_Discover_run b names Hdir).
  rewrite (netid_Discover_run b' names' Hdir'). simpl.
  rewrite !grandTotal_wrap.
  rewrite (exactTotal_Permutation b names names' Hperm).
  now rewrite (exactTotal_sameFiles b b' names' Hfiles).
Qed.

Lemma netid_Discover_order_independent_witness :
  fst (run netidSource.Discover Examples.pod) =
  fst (run netidSource.Discover Examples.shuffledPod).
Proof.
  apply (netid_Discover_order_independent Examples.pod Examples.shuffledPod
           ["eth0"; "eth1"; "eth2"; "eth3"; "lo"]
           ["lo"; "eth3"; "eth1"; "eth0"; "eth2"]).
  - intros filename. reflexivity.
  - reflexivity.
  - reflexivity.
  - apply NoDup_Permutation.
    + distinct_tokens.
    + distinct_tokens.
    + intros x. simpl. tauto.
Defined.

(** X12: the total of the mounted mode is kept in an [int], so that "SRIOV"
    is reported exactly when the exact sum of the values, reduced to the
    range of [int], is positive.  When the exact sum fits [int], this is
    when the exact sum is positive; when it does not, positive values can
    add up to a total that is not positive. *)
Theorem netid_Discover_total_wraps (b : backend) (names : list string) :
  dirEntries b netidSpec.dir = inl names ->
  exists features,
    fst (run netidSource.Discover b) = Done (Some features, None) /\
    (features = ["SRIOV"] <-> 0 < Go.wrap (netidSpec.exactTotal b names)) /\
    (Go.minInt <= netidSpec.exactTotal b names <= Go.maxInt ->
     (features = ["SRIOV"] <-> 0 < netidSpec.exactTotal b names)).
Proof.
  intros Hdir. rewrite (netid_Discover_run b names Hdir). simpl.
  eexists. split; [reflexivity |].
  assert (H : (if netidSpec.grandTotal b names >? 0 then ["SRIOV"] else [])
              = ["SRIOV"] <-> 0 < Go.wrap (netidSpec.exactTotal b names)).
  { rewrite <- grandTotal_wrap.
    destruct (netidSpec.grandTotal b names >? 0) eqn:E.
    - apply Z.gtb_lt in E. tauto.
    - assert (netidSpec.grandTotal b names <= 0).
      { rewrite Z.gtb_ltb in E. now apply Z.ltb_ge. }
      split; [discriminate | lia]. }
  split; trivial. intros Hfit. now rewrite <- (wrap_small _ Hfit).
Qed.

Lemma netid_Discover_total_wraps_witness :
  exists features,
    fst (run netidSource.Discover Examples.overflowPod) =
    Done (Some features, None) /\
    (features = ["SRIOV"] <->
     0 < Go.wrap (netidSpec.exactTotal Examples.overflowPod ["eth0"; "eth1"])) /\
    (Go.minInt <= netidSpec.exactTotal Examples.overflowPod ["eth0"; "eth1"]
     <= Go.maxInt ->
     (features = ["SRIOV"] <->
      0 < netidSpec.exactTotal Examples.overflowPod ["eth0"; "eth1"])).
Proof.
  apply (netid_Discover_total_wraps Examples.overflowPod). reflexivity.
Defined.

(** Two entries with 2^62 configured functions each: the total is the
    smallest [int] and "SRIOV" is not reported. *)
Example overflowPod_reports_nothing :
  netidSpec.numVfs Examples.overflowPod "eth0" = Some (2 ^ 62) /\
  netidSpec.numVfs Examples.overflowPod "eth1" = Some (2 ^ 62) /\
  netidSpec.grandTotal Examples.overflowPod ["eth0"; "eth1"] = Go.minInt /\
  fst (run netidSource.Discover Examples.overflowPod) = Done (Some [], None).
Proof. repeat split; reflexivity. Qed.
